(** * Pocket-Rokets task planner: a shallow embedding of [app.py]

    The development follows the layout of the script:
    - [Py]: the fragment of Python the script relies on (exceptions, JSON
      values as produced by [response.json()], subscripting, truthiness,
      [min] with a key, [json.dumps], [str] on integers);
    - [Clock]: reference behaviour of the three [datetime] calls of the
      weather tool, used to evaluate the tool on concrete inputs;
    - [Weather]: the [get_weather] tool;
    - [Store]: the SQLite table [plans] with [save_plan] and [get_all_plans];
    - [App]: the top-level Streamlit script (credential check, pages);
    - [Parser], [Loop] and [Agent]: the response parser, the reasoning loop
      and the executor, which the script obtains from the agent framework. *)

From Stdlib Require Import ZArith List String Ascii Bool Lia.
From Stdlib Require Import Numbers.DecimalString.
Import ListNotations.

Set Warnings "-register-all,-notation-for-abbreviation".

Local Open Scope string_scope.
Local Open Scope Z_scope.

(* ================================================================= *)
(** ** Python fragment *)

Module Py.

(** Exceptions the script can see.  [KeyError] carries the missing string
    key, [KeyErrorInt] a missing integer key (a dict subscripted by [0]);
    [SecretsNotFound] is what [st.secrets] raises when there is no secrets
    file to load. *)
Inductive exn : Type :=
| KeyError (key : string)
| KeyErrorInt (key : Z)
| IndexError
| TypeError
| AttributeError
| ValueError
| JSONDecodeError
| RequestException (what : string)
| OperationalError
| IntegrityError
| InterfaceError
| SecretsNotFound
| AgentError (what : string).

(** A Python call either returns a value or raises. *)
Inductive result (A : Type) : Type :=
| Return (a : A)
| Raise (e : exn).
Arguments Return {A} a.
Arguments Raise {A} e.

Definition bind {A B : Type} (m : result A) (k : A -> result B) : result B :=
  match m with
  | Return a => k a
  | Raise e => Raise e
  end.

Notation "x <- m ;; k" := (bind m (fun x => k))
  (at level 61, m at next level, right associativity).

Definition returns {A : Type} (m : result A) : bool :=
  match m with Return _ => true | Raise _ => false end.

(** Values produced by [json.loads].  A float is kept as its [repr], which
    determines the float and is what [json.dumps] prints for finite floats.
    A dict is its list of items in insertion order (keys are distinct). *)
Inductive json : Type :=
| JNull
| JBool (b : bool)
| JInt (n : Z)
| JFloat (repr : string)
| JStr (s : string)
| JArr (items : list json)
| JObj (items : list (string * json)).

Fixpoint assoc {A : Type} (k : string) (kv : list (string * A)) : option A :=
  match kv with
  | [] => None
  | (k', v) :: rest => if String.eqb k k' then Some v else assoc k rest
  end.

Definition is_object (v : json) : bool :=
  match v with JObj _ => true | _ => false end.

(** [v[k]] for a string key. *)
Definition getitem (v : json) (k : string) : result json :=
  match v with
  | JObj kv => match assoc k kv with
               | Some x => Return x
               | None => Raise (KeyError k)
               end
  | _ => Raise TypeError
  end.

Fixpoint chars (s : string) : list json :=
  match s with
  | EmptyString => []
  | String c r => JStr (String c EmptyString) :: chars r
  end.

(** Python sequence indexing, negative indices counting from the end. *)
Definition seq_index {A : Type} (l : list A) (i : Z) : result A :=
  let n := Z.of_nat (List.length l) in
  let j := if i <? 0 then i + n else i in
  if (j <? 0) || (n <=? j) then Raise IndexError
  else match nth_error l (Z.to_nat j) with
       | Some x => Return x
       | None => Raise IndexError
       end.

(** [v[i]] for an integer index. *)
Definition getindex (v : json) (i : Z) : result json :=
  match v with
  | JArr l => seq_index l i
  | JStr s => seq_index (chars s) i
  | JObj _ => Raise (KeyErrorInt i)
  | _ => Raise TypeError
  end.

(** [v.get(k, default)]: only dicts have the method. *)
Definition dict_get (v : json) (k : string) (default : json) : result json :=
  match v with
  | JObj kv => match assoc k kv with
               | Some x => Return x
               | None => Return default
               end
  | _ => Raise AttributeError
  end.

(** The items an iteration over [v] yields. *)
Definition iterate (v : json) : result (list json) :=
  match v with
  | JArr l => Return l
  | JObj kv => Return (map (fun p => JStr (fst p)) kv)
  | JStr s => Return (chars s)
  | _ => Raise TypeError
  end.

Definition str_truthy (s : string) : bool :=
  match s with EmptyString => false | _ => true end.

(** Truth value of an optional string argument ([None] or a [str]). *)
Definition opt_truthy (o : option string) : bool :=
  match o with None => false | Some s => str_truthy s end.

Definition truthy (v : json) : bool :=
  match v with
  | JNull => false
  | JBool b => b
  | JInt n => negb (n =? 0)
  | JFloat r => negb (String.eqb r "0.0" || String.eqb r "-0.0")
  | JStr s => str_truthy s
  | JArr l => match l with [] => false | _ => true end
  | JObj kv => match kv with [] => false | _ => true end
  end.

(** Truth value of a value that may be Python's [None]. *)
Definition truthy_opt (o : option json) : bool :=
  match o with None => false | Some v => truthy v end.

Section Min.
Context {A K : Type}.
Variable lt : K -> K -> bool.
Variable key : A -> result K.

(** The scan of [min(iterable, key=...)]: the key of every item is
    computed in order, and the running minimum is replaced only by an
    item whose key is strictly smaller. *)
Fixpoint min_scan (best : A) (bestk : K) (l : list A) : result A :=
  match l with
  | [] => Return best
  | x :: rest =>
      k <- key x ;;
      if lt k bestk then min_scan x k rest else min_scan best bestk rest
  end.

(** [min(l, key=key, default=None)]. *)
Definition min_by (l : list A) : result (option A) :=
  match l with
  | [] => Return None
  | x :: rest =>
      k <- key x ;;
      m <- min_scan x k rest ;;
      Return (Some m)
  end.
End Min.

(** The scan of [min] for an integer key that cannot raise. *)
Fixpoint first_min {A : Type} (kf : A -> Z) (best : A) (l : list A) : A :=
  match l with
  | [] => best
  | x :: rest =>
      if kf x <? kf best then first_min kf x rest else first_min kf best rest
  end.

(** The key of an item as a number; items whose key raises count as 0. *)
Definition key_of {A : Type} (key : A -> result Z) (x : A) : Z :=
  match key x with
  | Return k => k
  | Raise _ => 0
  end.

(** [str(n)] for an integer. *)
Definition str_of_Z (n : Z) : string := NilZero.string_of_int (Z.to_int n).

Definition hex_digit (n : nat) : ascii :=
  nth n (list_ascii_of_string "0123456789abcdef") "0"%char.

(** One character under [ensure_ascii=True]; characters are code points
    below 256. *)
Definition escape_char (c : ascii) : string :=
  let n := nat_of_ascii c in
  if Nat.eqb n 34 then String (ascii_of_nat 92) (String c EmptyString)
  else if Nat.eqb n 92 then "\\"
  else if Nat.eqb n 10 then "\n"
  else if Nat.eqb n 13 then "\r"
  else if Nat.eqb n 9 then "\t"
  else if Nat.eqb n 8 then "\b"
  else if Nat.eqb n 12 then "\f"
  else if Nat.leb 32 n && Nat.leb n 126 then String c EmptyString
  else "\u00" ++ String (hex_digit (Nat.div n 16))
                   (String (hex_digit (Nat.modulo n 16)) EmptyString).

Fixpoint escape (s : string) : string :=
  match s with
  | EmptyString => EmptyString
  | String c r => escape_char c ++ escape r
  end.

Definition quote (s : string) : string :=
  String (ascii_of_nat 34) (escape s ++ String (ascii_of_nat 34) EmptyString).

Definition dumps_float (r : string) : string :=
  if String.eqb r "nan" then "NaN"
  else if String.eqb r "inf" then "Infinity"
  else if String.eqb r "-inf" then "-Infinity"
  else r.

(** [json.dumps(v)] with the default separators. *)
Fixpoint dumps (v : json) : string :=
  match v with
  | JNull => "null"
  | JBool true => "true"
  | JBool false => "false"
  | JInt n => str_of_Z n
  | JFloat r => dumps_float r
  | JStr s => quote s
  | JArr l =>
      "[" ++ String.concat ", " (map dumps l) ++ "]"
  | JObj kv =>
      "{" ++ String.concat ", "
               (map (fun p => quote (fst p) ++ ": " ++ dumps (snd p)) kv) ++ "}"
  end.

End Py.

(* ================================================================= *)
(** ** Reference behaviour of the [datetime] calls

    A naive [datetime] is the number of microseconds between
    1970-01-01 00:00:00 and it on the proleptic Gregorian calendar, so that
    the difference of two datetimes is the [timedelta] between them.  The
    weather tool is verified for arbitrary [strptime], [fromtimestamp] and
    [strftime]; the definitions below give their behaviour on integer
    timestamps at a fixed offset from UTC and serve to run the tool. *)

Module Clock.
Import Py.

Definition datetime : Type := Z.

Definition usec_per_day : Z := 86400000000.

(** Days between 1970-01-01 and the civil date [y]-[m]-[d]. *)
Definition days_from_civil (y m d : Z) : Z :=
  let y' := if m <=? 2 then y - 1 else y in
  let era := y' / 400 in
  let yoe := y' - era * 400 in
  let doy := (153 * (if 2 <? m then m - 3 else m + 9) + 2) / 5 + d - 1 in
  let doe := yoe * 365 + yoe / 4 - yoe / 100 + doy in
  era * 146097 + doe - 719468.

(** The civil date [(y, m, d)] of a day number. *)
Definition civil_from_days (z : Z) : Z * Z * Z :=
  let z' := z + 719468 in
  let era := z' / 146097 in
  let doe := z' - era * 146097 in
  let yoe := (doe - doe / 1460 + doe / 36524 - doe / 146096) / 365 in
  let doy := doe - (365 * yoe + yoe / 4 - yoe / 100) in
  let mp := (5 * doy + 2) / 153 in
  let d := doy - (153 * mp + 2) / 5 + 1 in
  let m := if mp <? 10 then mp + 3 else mp - 9 in
  (yoe + era * 400 + (if m <=? 2 then 1 else 0), m, d).

Definition is_leap (y : Z) : bool :=
  (y mod 4 =? 0) && (negb (y mod 100 =? 0) || (y mod 400 =? 0)).

Definition days_in_month (y m : Z) : Z :=
  if m =? 2 then (if is_leap y then 29 else 28)
  else if (m =? 4) || (m =? 6) || (m =? 9) || (m =? 11) then 30 else 31.

Definition digit (c : ascii) : option Z :=
  let n := Z.of_nat (nat_of_ascii c) in
  if (48 <=? n) && (n <=? 57) then Some (n - 48) else None.

(** Month field of [%m]: [1[0-2]|0[1-9]|[1-9]]. *)
Definition scan_month (l : list ascii) : option (Z * list ascii) :=
  match l with
  | a :: b :: rest =>
      match digit a, digit b with
      | Some 1, Some y => if y <=? 2 then Some (10 + y, rest) else Some (1, b :: rest)
      | Some 0, Some y => if 1 <=? y then Some (y, rest) else None
      | Some x, _ => if 1 <=? x then Some (x, b :: rest) else None
      | None, _ => None
      end
  | [a] => match digit a with
           | Some x => if 1 <=? x then Some (x, []) else None
           | None => None
           end
  | [] => None
  end.

(** Day field of [%d]: [3[01]|[12]\d|0[1-9]|[1-9]| [1-9]]. *)
Definition scan_day (l : list ascii) : option (Z * list ascii) :=
  match l with
  | a :: b :: rest =>
      match digit a, digit b with
      | Some 3, Some y => if y <=? 1 then Some (30 + y, rest) else Some (3, b :: rest)
      | Some 0, Some y => if 1 <=? y then Some (y, rest) else None
      | Some x, Some y => if x <=? 2 then Some (10 * x + y, rest) else Some (x, b :: rest)
      | Some x, None => if 1 <=? x then Some (x, b :: rest) else None
      | None, Some y => if Nat.eqb (nat_of_ascii a) 32 && (1 <=? y)
                        then Some (y, rest) else None
      | None, None => None
      end
  | [a] => match digit a with
           | Some x => if 1 <=? x then Some (x, []) else None
           | None => None
           end
  | [] => None
  end.

Definition is_dash (c : ascii) : bool := Nat.eqb (nat_of_ascii c) 45.

(** [datetime.strptime(s, "%Y-%m-%d")]. *)
Definition strptime (s : string) : result datetime :=
  match list_ascii_of_string s with
  | y1 :: y2 :: y3 :: y4 :: dash1 :: rest =>
      match digit y1, digit y2, digit y3, digit y4, scan_month rest with
      | Some a, Some b, Some c, Some d, Some (m, dash2 :: rest') =>
          match scan_day rest' with
          | Some (dd, []) =>
              let y := 1000 * a + 100 * b + 10 * c + d in
              if is_dash dash1 && is_dash dash2
                 && (1 <=? y) && (dd <=? days_in_month y m)
              then Return (days_from_civil y m dd * usec_per_day)
              else Raise ValueError
          | _ => Raise ValueError
          end
      | _, _, _, _, _ => Raise ValueError
      end
  | _ => Raise ValueError
  end.

Definition datetime_min : Z := days_from_civil 1 1 1 * usec_per_day.
Definition datetime_max : Z := days_from_civil 10000 1 1 * usec_per_day - 1.

(** [datetime.fromtimestamp(v)] for a local zone [offset] seconds east of
    UTC; [bool] is an [int] in Python.  Fractional timestamps, which the
    forecast endpoint does not send, are not converted here. *)
Definition fromtimestamp (offset : Z) (v : json) : result datetime :=
  let at_seconds n :=
    let t := (n + offset) * 1000000 in
    if (datetime_min <=? t) && (t <=? datetime_max) then Return t
    else Raise ValueError in
  match v with
  | JInt n => at_seconds n
  | JBool b => at_seconds (if b then 1 else 0)
  | JFloat _ => Raise ValueError
  | _ => Raise TypeError
  end.

Definition pad (width : nat) (n : Z) : string :=
  let s := str_of_Z n in
  string_of_list_ascii (repeat "0"%char (width - String.length s)) ++ s.

(** [t.strftime("%Y-%m-%d %H:%M")]. *)
Definition strftime (t : datetime) : string :=
  let '(y, m, d) := civil_from_days (t / usec_per_day) in
  let secs := (t mod usec_per_day) / 1000000 in
  pad 4 y ++ "-" ++ pad 2 m ++ "-" ++ pad 2 d ++ " "
    ++ pad 2 (secs / 3600) ++ ":" ++ pad 2 ((secs / 60) mod 60).

(** The text SQLite's [CURRENT_TIMESTAMP] writes for a clock in seconds. *)
Definition timestamp_text (secs : Z) : string :=
  let '(y, m, d) := civil_from_days (secs / 86400) in
  let s := secs mod 86400 in
  pad 4 y ++ "-" ++ pad 2 m ++ "-" ++ pad 2 d ++ " "
    ++ pad 2 (s / 3600) ++ ":" ++ pad 2 ((s / 60) mod 60) ++ ":"
    ++ pad 2 (s mod 60).

End Clock.

(* ================================================================= *)
(** ** The weather tool *)

Module Weather.
Import Py.

(** What [requests.get] hands back: the status code and the outcome of
    [response.json()]. *)
Record response : Type := mkResponse {
  status_code : Z;
  response_json : result json
}.

(** The fields of a forecast entry that the summary reports. *)
Record view : Type := mkView {
  v_time : Clock.datetime;
  v_temp : json;
  v_weather : json;
  v_humidity : json
}.

Section Tool.
(** Module-level state and library calls of [get_weather]. *)
Variable OPENWEATHER_API_KEY : string.
Variable requests_get : string -> result response.
Variable strptime : string -> result Clock.datetime.
Variable now : Clock.datetime.
Variable fromtimestamp : json -> result Clock.datetime.
Variable strftime : Clock.datetime -> string.

Definition base_url : string := "https://api.openweathermap.org/data/2.5/".

Definition forecast_url (location : string) : string :=
  base_url ++ "forecast?q=" ++ location ++ "&appid=" ++ OPENWEATHER_API_KEY
    ++ "&units=metric".

Definition current_url (location : string) : string :=
  base_url ++ "weather?q=" ++ location ++ "&appid=" ++ OPENWEATHER_API_KEY
    ++ "&units=metric".

Definition weather_url (location : string) (date : option string) : string :=
  if opt_truthy date then forecast_url location else current_url location.

(** [datetime.strptime(date, "%Y-%m-%d")] on the optional argument. *)
Definition strptime_arg (date : option string) : result Clock.datetime :=
  match date with
  | Some s => strptime s
  | None => Raise TypeError
  end.

(** The key of the [min]:
    [abs(datetime.fromtimestamp(f['dt']) - target_dt)]. *)
Definition distance (target_dt : Clock.datetime) (f : json) : result Z :=
  dt <- getitem f "dt" ;;
  t <- fromtimestamp dt ;;
  Return (Z.abs (t - target_dt)).

(** The forecast branch once [closest] is known to be truthy. *)
Definition forecast_summary (closest : option json) : result string :=
  match closest with
  | None => Raise TypeError
  | Some c =>
      dt <- getitem c "dt" ;;
      t <- fromtimestamp dt ;;
      main <- getitem c "main" ;;
      temp <- getitem main "temp" ;;
      weather <- getitem c "weather" ;;
      w0 <- getindex weather 0 ;;
      description <- getitem w0 "description" ;;
      main' <- getitem c "main" ;;
      humidity <- getitem main' "humidity" ;;
      Return (dumps (JObj [("date", JStr (strftime t));
                           ("temp", temp);
                           ("weather", description);
                           ("humidity", humidity)]))
  end.

Definition current_summary (data : json) : result string :=
  main <- getitem data "main" ;;
  temp <- getitem main "temp" ;;
  weather <- getitem data "weather" ;;
  w0 <- getindex weather 0 ;;
  description <- getitem w0 "description" ;;
  main' <- getitem data "main" ;;
  humidity <- getitem main' "humidity" ;;
  Return (dumps (JObj [("temp", temp);
                       ("weather", description);
                       ("humidity", humidity)])).

Definition get_weather (location : string) (date : option string)
  : result string :=
  response <- requests_get (weather_url location date) ;;
  if status_code response =? 200 then
    data <- response_json response ;;
    if opt_truthy date then
      target_dt <- (if opt_truthy date then strptime_arg date
                    else Return now) ;;
      forecasts <- dict_get data "list" (JArr []) ;;
      items <- iterate forecasts ;;
      closest <- min_by Z.ltb (distance target_dt) items ;;
      if truthy_opt closest then forecast_summary closest
      else Return "No forecast available."
    else current_summary data
  else
    Return ("Error fetching weather: " ++ str_of_Z (status_code response)).

(** The reported fields of one forecast entry, read the way the tool
    reads them. *)
Definition entry_view (f : json) : result view :=
  dt <- getitem f "dt" ;;
  t <- fromtimestamp dt ;;
  main <- getitem f "main" ;;
  temp <- getitem main "temp" ;;
  weather <- getitem f "weather" ;;
  w0 <- getindex weather 0 ;;
  description <- getitem w0 "description" ;;
  humidity <- getitem main "humidity" ;;
  Return (mkView t temp description humidity).

(** Distance of an entry to the target, for entries that can be read. *)
Definition gap (target : Clock.datetime) (f : json) : Z :=
  match entry_view f with
  | Return v => Z.abs (v_time v - target)
  | Raise _ => 0
  end.

Definition summary_text (v : view) : string :=
  dumps (JObj [("date", JStr (strftime (v_time v)));
               ("temp", v_temp v);
               ("weather", v_weather v);
               ("humidity", v_humidity v)]).
End Tool.

(** A forecast entry as the endpoint sends it. *)
Definition entry (dt : Z) (temp : string) (descr : string) (hum : Z) : json :=
  JObj [("dt", JInt dt);
        ("main", JObj [("temp", JFloat temp); ("humidity", JInt hum)]);
        ("weather", JArr [JObj [("id", JInt 800); ("description", JStr descr)]])].

(** A server answering every request with [resp]. *)
Definition always (resp : result response) : string -> result response :=
  fun _ => resp.

(** A 200 answer carrying [data]. *)
Definition ok (data : json) : result response :=
  Return (mkResponse 200 (Return data)).

(** Three forecast points three hours apart around 2024-02-29 00:00 UTC. *)
Definition t1 : Z := 1709154000.
Definition t2 : Z := 1709164800.
Definition t3 : Z := 1709175600.

Definition three_points : list json :=
  [entry t1 "19.4" "light rain" 71;
   entry t2 "18.2" "overcast clouds" 78;
   entry t3 "17.9" "clear sky" 80].

(** A forecast list whose last point has lost its timestamp. *)
Definition broken_points : list json :=
  [entry t2 "18.2" "overcast clouds" 78;
   JObj [("main", JObj [("temp", JFloat "17.9"); ("humidity", JInt 80)])]].

(** A current-conditions payload. *)
Definition current_payload : json :=
  JObj [("weather", JArr [JObj [("description", JStr "haze")]]);
        ("main", JObj [("temp", JInt 31); ("humidity", JInt 40)]);
        ("name", JStr "Pune")].

Definition run (http : string -> result response) (offset : Z)
  : string -> option string -> result string :=
  get_weather "k" http Clock.strptime 0 (Clock.fromtimestamp offset)
    Clock.strftime.

End Weather.

(* ================================================================= *)
(** ** The plan store *)

Module Store.
Import Py.

(** A row of the table [plans].  [created_at] is the value of
    [CURRENT_TIMESTAMP] at the insert: the clock in whole seconds (SQLite
    writes it as ["YYYY-MM-DD HH:MM:SS"], whose text order is the order of
    the seconds). *)
Record row : Type := mkRow {
  id : Z;
  goal : string;
  plan : json;
  created_at : Z
}.

(** The table: its rows in rowid order and the last id handed out by
    [AUTOINCREMENT]. *)
Record table : Type := mkTable {
  rows : list row;
  last_id : Z
}.

(** The file [plans.db]: [None] while the table has not been created. *)
Definition database : Type := option table.

(** [CREATE TABLE IF NOT EXISTS plans (...)]. *)
Definition init_db (d : database) : database :=
  match d with
  | None => Some (mkTable [] 0)
  | Some t => Some t
  end.

(** A value of the run that sqlite3 can bind to the [NOT NULL] column
    [plan]. *)
Definition bindable (v : json) : result json :=
  match v with
  | JNull => Raise IntegrityError
  | JArr _ | JObj _ => Raise InterfaceError
  | _ => Return v
  end.

(** [INSERT INTO plans (goal, plan) VALUES (?, ?)] at clock [now]. *)
Definition save_plan (now : Z) (g : string) (p : json) (d : database)
  : result database :=
  match d with
  | None => Raise OperationalError
  | Some t =>
      v <- bindable p ;;
      let i := last_id t + 1 in
      Return (Some (mkTable (rows t ++ [mkRow i g v now])%list i))
  end.

(** Position of [r] among rows already ordered by [created_at DESC]: in front
    of the first row that is not later than [r]. *)
Fixpoint insert_desc (r : row) (l : list row) : list row :=
  match l with
  | [] => [r]
  | x :: rest =>
      if created_at x <=? created_at r then r :: x :: rest
      else x :: insert_desc r rest
  end.

(** [ORDER BY created_at DESC] over a scan in rowid order.  SQL leaves the
    order of rows with equal keys open; SQLite's sorter keeps them in scan
    order, and so does this sort. *)
Definition order_by_created_at_desc (l : list row) : list row :=
  fold_right insert_desc [] l.

(** [SELECT id, goal, plan, created_at FROM plans ORDER BY created_at DESC]. *)
Definition get_all_plans (d : database) : result (list row) :=
  match d with
  | None => Raise OperationalError
  | Some t => Return (order_by_created_at_desc (rows t))
  end.

(** Calls of [save_plan] one after the other, each with the clock at the
    call, the goal and the plan text. *)
Fixpoint save_all (calls : list (Z * string * string)) (d : database)
  : result database :=
  match calls with
  | [] => Return d
  | (now, g, p) :: rest =>
      d' <- save_plan now g (JStr p) d ;;
      save_all rest d'
  end.

(** The rows such calls create when the first of them gets the id [i]. *)
Fixpoint numbered (i : Z) (calls : list (Z * string * string)) : list row :=
  match calls with
  | [] => []
  | (now, g, p) :: rest => mkRow i g (JStr p) now :: numbered (i + 1) rest
  end.

(** Every row is later than all rows before it. *)
Fixpoint increasing (l : list row) : bool :=
  match l with
  | x :: ((y :: _) as rest) => (created_at x <? created_at y) && increasing rest
  | _ => true
  end.


Fixpoint descending (l : list row) : bool :=
  match l with
  | x :: ((y :: _) as rest) => (created_at y <=? created_at x) && descending rest
  | _ => true
  end.

End Store.

(* ================================================================= *)
(** ** The Streamlit script *)

Module App.
Import Py.

(** What a run of the script does that can be observed from outside. *)
Inductive event : Type :=
| StError (msg : string)
| StTitle (msg : string)
| StSpinner (msg : string)
| StMarkdown (msg : string)
| StWrite (v : json)
| StSuccess (msg : string)
| StInfo (msg : string)
| StExpander (label : string)
| AgentInvoke (goal : string)
| SavePlan (goal : string) (plan : json).

Record world : Type := mkWorld {
  db : Store.database;
  log : list event
}.

(** A script statement runs to its end, halts the script ([st.stop()]) or
    lets an exception escape. *)
Inductive outcome (A : Type) : Type :=
| Ok (a : A)
| Stopped
| Crashed (e : exn).
Arguments Ok {A} a.
Arguments Stopped {A}.
Arguments Crashed {A} e.

Definition script (A : Type) : Type := world -> outcome A * world.

Definition ret {A : Type} (a : A) : script A := fun w => (Ok a, w).

Definition seq {A B : Type} (m : script A) (k : A -> script B) : script B :=
  fun w =>
    match m w with
    | (Ok a, w') => k a w'
    | (Stopped, w') => (Stopped, w')
    | (Crashed e, w') => (Crashed e, w')
    end.

Notation "x <~ m ;; k" := (seq m (fun x => k))
  (at level 61, m at next level, right associativity).
Notation "m ;;; k" := (seq m (fun _ => k))
  (at level 61, right associativity).

Definition emit (ev : event) : script unit :=
  fun w => (Ok tt, mkWorld (db w) (log w ++ [ev])%list).

Definition st_stop {A : Type} : script A := fun w => (Stopped, w).

Definition lift {A : Type} (r : result A) : script A :=
  fun w => match r with
           | Return a => (Ok a, w)
           | Raise e => (Crashed e, w)
           end.

Definition on_db (f : Store.database -> result Store.database) : script unit :=
  fun w => match f (db w) with
           | Return d => (Ok tt, mkWorld d (log w))
           | Raise e => (Crashed e, w)
           end.

Definition when (b : bool) (m : script unit) : script unit :=
  if b then m else ret tt.

Inductive page : Type := NewPlan | ViewHistory.

Definition is_new_plan (p : page) : bool :=
  match p with NewPlan => true | ViewHistory => false end.

(** [a or b] on optional strings. *)
Definition or_else (a b : option string) : option string :=
  if opt_truthy a then a else b.

Section Script.
(** The surroundings of one run of the script: the secrets file, if there
    is one, as the string values of its keys; the environment the process
    was started with; the executor; the clock; the widgets. *)
Variable secrets_file : option (string -> option string).
Variable environ : string -> option string.
Variable agent_executor_invoke : string -> result json.
Variable now : Z.
Variable selected : page.
Variable goal : string.
Variable button : bool.

(** [st.secrets.get(name)]: the access loads the secrets file and raises
    when there is none; only a missing key gives [None]. *)
Definition secrets_get (name : string) : result (option string) :=
  match secrets_file with
  | None => Raise SecretsNotFound
  | Some file => Return (file name)
  end.

(** [os.getenv(name)] after the secrets were loaded: loading them writes
    every secret into [os.environ], over the value that was there. *)
Definition getenv (name : string) : option string :=
  match secrets_file with
  | Some file =>
      match file name with
      | Some v => Some v
      | None => environ name
      end
  | None => environ name
  end.

(** [st.secrets.get(name) or os.getenv(name)]. *)
Definition credential (name : string) : result (option string) :=
  a <- secrets_get name ;;
  Return (or_else a (getenv name)).

Definition GROQ_API_KEY : result (option string) := credential "GROQ_API_KEY".
Definition SERPER_API_KEY : result (option string) :=
  credential "SERPER_API_KEY".
Definition OPENWEATHER_API_KEY : result (option string) :=
  credential "OPENWEATHER_API_KEY".

(** The three assignments at the top of the script, in their order. *)
Definition keys : result (list (option string)) :=
  groq <- GROQ_API_KEY ;;
  serper <- SERPER_API_KEY ;;
  openweather <- OPENWEATHER_API_KEY ;;
  Return [groq; serper; openweather].

(** The key check passes: the three assignments go through and
    [all([GROQ_API_KEY, SERPER_API_KEY, OPENWEATHER_API_KEY])] holds. *)
Definition all_keys : bool :=
  match keys with
  | Return l => forallb opt_truthy l
  | Raise _ => false
  end.

(** [name] has no non-empty value once the secrets are loaded. *)
Definition missing (name : string) : bool := negb (opt_truthy (getenv name)).

Definition missing_keys : string :=
  "Missing API keys. Please set GROQ_API_KEY, SERPER_API_KEY, and OPENWEATHER_API_KEY.".

Definition check_keys : script unit :=
  l <~ lift keys ;;
  if negb (forallb opt_truthy l) then
    emit (StError missing_keys) ;;;
    st_stop
  else ret tt.

Definition init_db : script unit :=
  on_db (fun d => Return (Store.init_db d)).

Definition save_plan (g : string) (p : json) : script unit :=
  emit (SavePlan g p) ;;;
  on_db (Store.save_plan now g p).

Definition get_all_plans : script (list Store.row) :=
  fun w => lift (Store.get_all_plans (db w)) w.

Definition new_plan_page : script unit :=
  if button then
    if str_truthy goal then
      emit (StSpinner "Generating plan...") ;;;
      emit (AgentInvoke goal) ;;;
      response <~ lift (agent_executor_invoke goal) ;;
      plan <~ lift (getitem response "output") ;;
      emit (StMarkdown "### Generated Plan") ;;;
      emit (StWrite plan) ;;;
      save_plan goal plan ;;;
      emit (StSuccess "Plan saved!")
    else emit (StError "Please enter a goal.")
  else ret tt.

(** What a planning run hands to [save_plan]: the goal with the [output] of
    the executor's answer, if the executor returned one. *)
Definition handed_over (g : string) : list (string * json) :=
  match agent_executor_invoke g with
  | Return response =>
      match getitem response "output" with
      | Return plan => [(g, plan)]
      | Raise _ => []
      end
  | Raise _ => []
  end.

(** The run is a planning run: the keys are there, the New Plan page is
    selected, the button is pressed and the goal is not empty. *)
Definition requested : bool :=
  all_keys && is_new_plan selected && button && str_truthy goal.

Fixpoint show_plans (l : list Store.row) : script unit :=
  match l with
  | [] => ret tt
  | r :: rest =>
      emit (StExpander ("Goal: " ++ Store.goal r ++ " (Created: "
                          ++ Clock.timestamp_text (Store.created_at r) ++ ")")) ;;;
      emit (StWrite (Store.plan r)) ;;;
      show_plans rest
  end.

Definition view_history_page : script unit :=
  plans <~ get_all_plans ;;
  match plans with
  | [] => emit (StInfo "No plans saved yet.")
  | _ => show_plans plans
  end.

(** The script from top to bottom. *)
Definition main : script unit :=
  check_keys ;;;
  init_db ;;;
  emit (StTitle "AI Task Planner") ;;;
  match selected with
  | NewPlan => new_plan_page
  | ViewHistory => view_history_page
  end.
End Script.

(** An executor that answers with a plan, and one that gives up. *)
Definition answers (plan : string) : string -> result json :=
  fun goal => Return (JObj [("input", JStr goal); ("output", JStr plan)]).

Definition gives_up : string -> result json :=
  fun _ => Raise (AgentError "could not reach a final answer").

Definition fresh : world := mkWorld (Store.init_db None) [].

Definition no_secrets : string -> option string := fun _ => None.


(** A text an executor may return, instead of raising, when it gives up. *)
Definition stopped_text : string :=
  "Agent stopped due to iteration limit or time limit.".

(** What the history page shows for one record. *)
Definition record_events (r : Store.row) : list event :=
  [StExpander ("Goal: " ++ Store.goal r ++ " (Created: "
                 ++ Clock.timestamp_text (Store.created_at r) ++ ")");
   StWrite (Store.plan r)].

(** What the history page shows for a listing. *)
Definition history_events (l : list Store.row) : list event :=
  match l with
  | [] => [StInfo "No plans saved yet."]
  | _ => flat_map record_events l
  end.

Definition all_secrets : string -> option string := fun _ => Some "key".

Definition is_agent_call (ev : event) : bool :=
  match ev with AgentInvoke _ => true | _ => false end.

(** The arguments of the calls of [save_plan], in order. *)
Fixpoint saves (l : list event) : list (string * json) :=
  match l with
  | [] => []
  | SavePlan g p :: rest => (g, p) :: saves rest
  | _ :: rest => saves rest
  end.

End App.

(* ================================================================= *)
(** ** The response parser

    [create_react_agent] supplies the parser; its code is the framework's
    and not part of the script, so it is modelled from the specification. *)

Module Parser.

(** Modelled from the spec: the Parsed Intent of section 3. *)
Inductive intent : Type :=
| ActionRequest (tool : string) (argument : string)
| FinalAnswer (plan : string).

(** Modelled from the spec: what [parse] answers, an intent or a
    [ParseError] with the offending text. *)
Inductive parsed : Type :=
| Parsed (i : intent)
| ParseError (raw : string).

(** [strip_prefix m s] is what follows [m] when [s] starts with [m]. *)
Fixpoint strip_prefix (m s : string) : option string :=
  match m, s with
  | EmptyString, _ => Some s
  | String a m', String b s' =>
      if Ascii.eqb a b then strip_prefix m' s' else None
  | String _ _, EmptyString => None
  end.

(** The text before and the text after the first occurrence of [m]. *)
Fixpoint split_first (m s : string) : option (string * string) :=
  match strip_prefix m s with
  | Some rest => Some (EmptyString, rest)
  | None =>
      match s with
      | EmptyString => None
      | String c s' =>
          match split_first m s' with
          | Some (before, after) => Some (String c before, after)
          | None => None
          end
      end
  end.

(** Number of positions at which [m] occurs. *)
Fixpoint occurrences (m s : string) : nat :=
  let here := match strip_prefix m s with Some _ => 1%nat | None => 0%nat end in
  match s with
  | EmptyString => here
  | String _ s' => (here + occurrences m s')%nat
  end.

Definition is_space (c : ascii) : bool :=
  let n := nat_of_ascii c in
  Nat.eqb n 32 || (Nat.leb 9 n && Nat.leb n 13).

Fixpoint ltrim (s : string) : string :=
  match s with
  | EmptyString => EmptyString
  | String c r => if is_space c then ltrim r else s
  end.

Fixpoint rtrim (s : string) : string :=
  match s with
  | EmptyString => EmptyString
  | String c r =>
      match rtrim r with
      | EmptyString => if is_space c then EmptyString else String c EmptyString
      | r' => String c r'
      end
  end.

Definition trim (s : string) : string := rtrim (ltrim s).

Definition final_marker : string := "Final Answer:".
Definition action_marker : string := "Action:".
Definition input_marker : string := "Action Input:".

(** Modelled from the spec: the Response Parser of section 4.3, whose code is
    the agent framework's.  The first occurrence of the terminal marker
    decides: everything after it is the final answer.  Without it, exactly
    one [Action:] followed by exactly one [Action Input:] is required, the
    trimmed text between them being the tool name and the trimmed text after
    the second marker the argument (no marker can follow it then); anything
    else is a [ParseError] carrying the raw text. *)
Definition parse (raw : string) : parsed :=
  match split_first final_marker raw with
  | Some (_, answer) => Parsed (FinalAnswer answer)
  | None =>
      match split_first action_marker raw with
      | Some (_, after_action) =>
          match split_first input_marker after_action with
          | Some (name, argument) =>
              if Nat.eqb (occurrences action_marker raw) 1
                 && Nat.eqb (occurrences input_marker raw) 1
                 && Py.str_truthy (trim name)
              then Parsed (ActionRequest (trim name) (trim argument))
              else ParseError raw
          | None => ParseError raw
          end
      | None => ParseError raw
      end
  end.

(** [m] occurs in [s] at offset [String.length before]. *)
Definition occurs_at (m before s : string) : Prop :=
  exists after, s = before ++ m ++ after.

End Parser.

(* ================================================================= *)
(** ** The reasoning loop

    [AgentExecutor] runs the loop; its code is the framework's and not part
    of the script, so the loop is modelled from the specification. *)

Module Loop.
Import Parser.

(** Modelled from the spec: a step of the Transcript of section 3. *)
Inductive entry : Type :=
| ModelUtterance (raw : string)
| ToolInvocation (tool : string) (argument : string)
| ToolObservation (text : string).

Inductive tool_error : Type :=
| UnknownToolError (tool : string)
| ToolExecutionError (what : string).

(** Modelled from the spec: the states of the loop of section 4.4. *)
Inductive state : Type :=
| Thinking
| Acting (tool : string) (argument : string)
| Done (plan : string)
| Failed (error : string).

Record config : Type := mkConfig {
  phase : state;
  transcript : list entry;
  rounds : nat
}.

Definition cap_error : string := "could not reach a final answer".

Definition describe (e : tool_error) : string :=
  match e with
  | UnknownToolError t => "unknown tool: " ++ t
  | ToolExecutionError w => "tool failed: " ++ w
  end.

Definition is_terminal (s : state) : bool :=
  match s with
  | Done _ | Failed _ => true
  | _ => false
  end.

Section Run.
Variable cap : nat.
Variable render : string -> list entry -> string.
(** The answer of the backend to its [n]-th call, given the prompt. *)
Variable backend : nat -> string -> string.
(** The registry: tool names with their functions, which return a text or
    fail with a description. *)
Variable registry : list (string * (string -> string + string)).
Variable goal : string.

(** Modelled from the spec: [invoke] of the Tool Registry (section 4.1). *)
Definition invoke (tool argument : string) : string + tool_error :=
  match Py.assoc tool registry with
  | None => inr (UnknownToolError tool)
  | Some f =>
      match f argument with
      | inl text => inl text
      | inr what => inr (ToolExecutionError what)
      end
  end.

(** Modelled from the spec: one transition of the state machine of section
    4.4, whose code is the agent framework's.  A Thinking turn that finds
    the cap used up fails the run; otherwise it calls the backend once,
    records the utterance and follows the parse.  An Acting turn dispatches
    the tool and records the result or the error as an observation.
    [rounds] counts the Thinking turns that called the backend. *)
Definition step (c : config) : config :=
  match phase c with
  | Thinking =>
      if Nat.leb cap (rounds c) then
        mkConfig (Failed cap_error) (transcript c) (rounds c)
      else
        let raw := backend (rounds c) (render goal (transcript c)) in
        let t := (transcript c ++ [ModelUtterance raw])%list in
        match parse raw with
        | Parsed (FinalAnswer plan) => mkConfig (Done plan) t (S (rounds c))
        | Parsed (ActionRequest tool argument) =>
            mkConfig (Acting tool argument) t (S (rounds c))
        | ParseError bad =>
            mkConfig Thinking
              (t ++ [ToolObservation ("could not parse: " ++ bad)])%list
              (S (rounds c))
        end
  | Acting tool argument =>
      let t := (transcript c ++ [ToolInvocation tool argument])%list in
      match invoke tool argument with
      | inl text =>
          mkConfig Thinking (t ++ [ToolObservation text])%list (rounds c)
      | inr e =>
          mkConfig Thinking (t ++ [ToolObservation (describe e)])%list
            (rounds c)
      end
  | Done _ | Failed _ => c
  end.

Fixpoint steps (n : nat) (c : config) : config :=
  match n with
  | O => c
  | S k => steps k (step c)
  end.

Definition start : config := mkConfig Thinking [] 0.

(** Modelled from the spec: a run of the Reasoning Loop, driven until a
    terminal state; [2 * cap + 1] transitions always suffice. *)
Definition run : config := steps (2 * cap + 1) start.

(** What holds of every configuration a run goes through: the backend was
    called at most [cap] times, a failure is the cap error, and a plan is the
    final answer parsed from one of the backend's answers. *)
Definition sound (c : config) : Prop :=
  (rounds c <= cap)%nat /\
  match phase c with
  | Failed e => e = cap_error
  | Done plan =>
      exists n prompt,
        (n < cap)%nat /\ parse (backend n prompt) = Parsed (FinalAnswer plan)
  | _ => True
  end.

(** Transitions a configuration can still make. *)
Definition budget (c : config) : nat :=
  match phase c with
  | Thinking => 2 * (cap - rounds c) + 1
  | Acting _ _ => 2 * (cap - rounds c) + 2
  | Done _ | Failed _ => 0
  end.
End Run.

End Loop.

(* ================================================================= *)
(** ** The executor

    [agent_executor.invoke] is the framework's; the page only reads the
    [output] of its answer. *)

Module Agent.
Import Py.

Section Executor.
Variable cap : nat.
Variable render : string -> list Loop.entry -> string.
Variable backend : nat -> string -> string.
Variable registry : list (string * (string -> string + string)).

(** Modelled from the spec: [agent_executor.invoke], whose code is the agent
    framework's.  It runs the reasoning loop on the goal and answers with
    the loop's output under [output]: the final answer of a run that is
    [Done], the error description of a run that [Failed] (section 4.4, "the
    loop's output is an error description surfaced to the caller"). *)
Definition invoke (goal : string) : result json :=
  match Loop.phase (Loop.run cap render backend registry goal) with
  | Loop.Done plan =>
      Return (JObj [("input", JStr goal); ("output", JStr plan)])
  | Loop.Failed error =>
      Return (JObj [("input", JStr goal); ("output", JStr error)])
  | Loop.Thinking | Loop.Acting _ _ =>
      Raise (AgentError "the loop has not ended")
  end.
End Executor.

(** A prompt that is the goal alone, and a backend that never answers in
    the expected form. *)
Definition plain_render : string -> list Loop.entry -> string :=
  fun goal _ => goal.

Definition stubborn : nat -> string -> string :=
  fun _ _ => "I do not know".

End Agent.

(* ================================================================= *)
(** * Properties *)

(** ** [min] with a key returns the first minimal item *)

Module MinFacts.
Import Py.

Section FirstMin.
Context {A : Type}.
Variable kf : A -> Z.

Local Notation first_min := (first_min kf).

Lemma first_min_inv (l : list A) :
  forall (pre : list A) (best : A) (mid : list A),
    (forall x, In x pre -> kf best < kf x) ->
    (forall x, In x mid -> kf best <= kf x) ->
    exists pre' post',
      (pre ++ best :: mid ++ l)%list = (pre' ++ first_min best l :: post')%list /\
      (forall x, In x pre' -> kf (first_min best l) < kf x) /\
      (forall x, In x post' -> kf (first_min best l) <= kf x).
Proof.
  induction l as [|x rest IH]; intros pre best mid Hpre Hmid; simpl.
  - exists pre, mid. rewrite app_nil_r. auto.
  - destruct (kf x <? kf best) eqn:Hlt.
    + apply Z.ltb_lt in Hlt.
      destruct (IH (pre ++ best :: mid)%list x []) as (p & q & Heq & Hp & Hq).
      * intros y Hy. apply in_app_or in Hy as [Hy|[<-|Hy]].
        -- specialize (Hpre y Hy). lia.
        -- lia.
        -- specialize (Hmid y Hy). lia.
      * intros y [].
      * exists p, q. split; [|auto].
        rewrite <- Heq. simpl. rewrite <- app_assoc. reflexivity.
    + apply Z.ltb_ge in Hlt.
      destruct (IH pre best (mid ++ [x])%list) as (p & q & Heq & Hp & Hq).
      * exact Hpre.
      * intros y Hy. apply in_app_or in Hy as [Hy|[<-|[]]]; auto.
      * exists p, q. split; [|auto].
        rewrite <- Heq. rewrite <- app_assoc. reflexivity.
Qed.

Lemma first_min_split (x : A) (l : list A) :
  exists pre post,
    x :: l = (pre ++ first_min x l :: post)%list /\
    (forall y, In y pre -> kf (first_min x l) < kf y) /\
    (forall y, In y post -> kf (first_min x l) <= kf y).
Proof.
  destruct (first_min_inv l [] x []) as (p & q & Heq & Hp & Hq);
    try (intros y []).
  exists p, q. auto.
Qed.

Variable key : A -> result Z.

Lemma min_scan_pure (l : list A) :
  forall best,
    (forall x, In x l -> key x = Return (kf x)) ->
    min_scan Z.ltb key best (kf best) l = Return (first_min best l).
Proof.
  induction l as [|x rest IH]; intros best Hk; simpl; [reflexivity|].
  rewrite (Hk x (or_introl eq_refl)). simpl.
  destruct (kf x <? kf best); apply IH; intros y Hy; apply Hk; now right.
Qed.

Lemma min_by_pure (x : A) (l : list A) :
  (forall y, In y (x :: l) -> key y = Return (kf y)) ->
  min_by Z.ltb key (x :: l) = Return (Some (first_min x l)).
Proof.
  intros Hk. unfold min_by.
  rewrite (Hk x (or_introl eq_refl)). simpl.
  rewrite min_scan_pure by (intros y Hy; apply Hk; now right).
  reflexivity.
Qed.
End FirstMin.

End MinFacts.

(** ** The weather tool *)

Module WeatherFacts.
Import Py Weather MinFacts.

Ltac inv_bind H :=
  match type of H with
  | bind ?m _ = Return _ =>
      let E := fresh "E" in
      destruct m eqn:E; cbn [bind] in H |- *; [|discriminate H]
  end.

Section Tool.
Variable OPENWEATHER_API_KEY : string.
Variable requests_get : string -> result response.
Variable strptime : string -> result Clock.datetime.
Variable now : Clock.datetime.
Variable fromtimestamp : json -> result Clock.datetime.
Variable strftime : Clock.datetime -> string.

Local Notation get_weather :=
  (get_weather OPENWEATHER_API_KEY requests_get strptime now fromtimestamp
     strftime).
Local Notation weather_url := (weather_url OPENWEATHER_API_KEY).
Local Notation forecast_url := (forecast_url OPENWEATHER_API_KEY).
Local Notation current_url := (current_url OPENWEATHER_API_KEY).
Local Notation entry_view := (entry_view fromtimestamp).
Local Notation distance := (distance fromtimestamp).
Local Notation gap := (gap fromtimestamp).
Local Notation forecast_summary := (forecast_summary fromtimestamp strftime).
Local Notation summary_text := (summary_text strftime).

Lemma entry_view_distance (target : Clock.datetime) (f : json) (v : view) :
  entry_view f = Return v ->
  distance target f = Return (Z.abs (v_time v - target)).
Proof.
  unfold Weather.entry_view, Weather.distance. intros H.
  repeat inv_bind H. injection H as <-. reflexivity.
Qed.

Lemma entry_view_truthy (f : json) (v : view) :
  entry_view f = Return v -> truthy f = true.
Proof.
  unfold Weather.entry_view. intros H. inv_bind H.
  destruct f as [| | | | | |kv]; try discriminate E.
  destruct kv; [discriminate E|reflexivity].
Qed.

Lemma entry_view_summary (f : json) (v : view) :
  entry_view f = Return v ->
  forecast_summary (Some f) = Return (summary_text v).
Proof.
  unfold Weather.entry_view, Weather.forecast_summary. intros H.
  repeat inv_bind H. injection H as <-. reflexivity.
Qed.

Lemma readable_gap (target : Clock.datetime) (l : list json) :
  Forall (fun f => returns (entry_view f) = true) l ->
  forall f, In f l -> distance target f = Return (gap target f).
Proof.
  intros Hall f Hin. rewrite Forall_forall in Hall. specialize (Hall f Hin).
  unfold Weather.gap. destruct (entry_view f) as [v|] eqn:Hv; [|discriminate Hall].
  now apply entry_view_distance.
Qed.

(** C1.  On a 200 forecast response whose list is non-empty and whose
    entries all carry a timestamp, temperature, condition description and
    humidity, and for a date that [strptime] accepts, [get_weather] returns
    the summary of the entry [e] at the first position of the list where
    the absolute difference between the entry's time and the requested date
    is minimal: no entry is closer, every entry before [e] is strictly
    farther, and the text carries [e]'s time, temperature, description and
    humidity. *)
Theorem get_weather_selects_closest
    (location d : string) (resp : response) (kv : list (string * json))
    (fs : list json) (target : Clock.datetime) :
  str_truthy d = true ->
  requests_get (forecast_url location) = Return resp ->
  status_code resp = 200 ->
  response_json resp = Return (JObj kv) ->
  assoc "list" kv = Some (JArr fs) ->
  fs <> [] ->
  strptime d = Return target ->
  Forall (fun f => returns (entry_view f) = true) fs ->
  exists pre e post v,
    fs = (pre ++ e :: post)%list /\
    entry_view e = Return v /\
    (forall f v', In f fs -> entry_view f = Return v' ->
       Z.abs (v_time v - target) <= Z.abs (v_time v' - target)) /\
    (forall f v', In f pre -> entry_view f = Return v' ->
       Z.abs (v_time v - target) < Z.abs (v_time v' - target)) /\
    get_weather location (Some d) = Return (summary_text v).
Proof.
  intros Hd Hget Hst Hjson Hlist Hne Hparse Hall.
  destruct fs as [|x rest]; [contradiction|].
  destruct (first_min_split (gap target) x rest)
    as (pre & post & Hsplit & Hpre & Hpost).
  set (e := first_min (gap target) x rest) in *.
  assert (Hin : In e (x :: rest)).
  { rewrite Hsplit. apply in_or_app. right. now left. }
  pose proof Hall as Hall'. rewrite Forall_forall in Hall'.
  destruct (entry_view e) as [v|] eqn:Hv;
    [|specialize (Hall' e Hin); rewrite Hv in Hall'; discriminate].
  assert (Hgap : forall f v', entry_view f = Return v' ->
                   gap target f = Z.abs (v_time v' - target)).
  { intros f v' Hf. unfold Weather.gap. now rewrite Hf. }
  exists pre, e, post, v. repeat split; auto.
  - intros f v' Hf Hfv. rewrite <- (Hgap e v Hv), <- (Hgap f v' Hfv).
    rewrite Hsplit in Hf. apply in_app_or in Hf as [Hf|[<-|Hf]].
    + specialize (Hpre f Hf). lia.
    + lia.
    + now apply Hpost.
  - intros f v' Hf Hfv. rewrite <- (Hgap e v Hv), <- (Hgap f v' Hfv).
    now apply Hpre.
  - unfold Weather.get_weather, Weather.weather_url. simpl opt_truthy.
    rewrite Hd, Hget. simpl. rewrite Hst. simpl. rewrite Hjson. simpl.
    rewrite Hparse. cbn [bind dict_get]. rewrite Hlist. cbn [bind iterate].
    rewrite (min_by_pure (gap target))
      by (intros y Hy; now apply readable_gap with (l := x :: rest)).
    cbn [bind truthy_opt]. fold e.
    rewrite (entry_view_truthy e v Hv).
    now apply entry_view_summary.
Qed.

(** C4.  Whatever the endpoint (current conditions when no date is given,
    forecast otherwise), a response whose status code is not 200 makes
    [get_weather] return, without raising, the text
    "Error fetching weather: " followed by the status code in decimal. *)
Theorem get_weather_non200_text
    (location : string) (date : option string) (resp : response) :
  requests_get (weather_url location date) = Return resp ->
  status_code resp <> 200 ->
  get_weather location date
    = Return ("Error fetching weather: " ++ str_of_Z (status_code resp)).
Proof.
  intros Hget Hst. unfold Weather.get_weather. rewrite Hget. simpl.
  destruct (status_code resp =? 200) eqn:E; [|reflexivity].
  apply Z.eqb_eq in E. contradiction.
Qed.

(** C5.  With a date that [strptime] accepts and a 200 forecast response
    whose [list] is empty, [get_weather] returns the text
    "No forecast available." and does not raise. *)
Theorem get_weather_empty_forecast
    (location d : string) (resp : response) (kv : list (string * json))
    (target : Clock.datetime) :
  str_truthy d = true ->
  requests_get (forecast_url location) = Return resp ->
  status_code resp = 200 ->
  response_json resp = Return (JObj kv) ->
  assoc "list" kv = Some (JArr []) ->
  strptime d = Return target ->
  get_weather location (Some d) = Return "No forecast available.".
Proof.
  intros Hd Hget Hst Hjson Hlist Hparse.
  unfold Weather.get_weather, Weather.weather_url. simpl opt_truthy.
  rewrite Hd, Hget. simpl. rewrite Hst. simpl. rewrite Hjson. simpl.
  rewrite Hparse. simpl. rewrite Hlist. reflexivity.
Qed.

(** X4.  A 200 forecast payload without a [list] key is answered like an
    empty forecast, with "No forecast available.". *)
Lemma get_weather_absent_forecast
    (location d : string) (resp : response) (kv : list (string * json))
    (target : Clock.datetime) :
  str_truthy d = true ->
  requests_get (forecast_url location) = Return resp ->
  status_code resp = 200 ->
  response_json resp = Return (JObj kv) ->
  assoc "list" kv = None ->
  strptime d = Return target ->
  get_weather location (Some d) = Return "No forecast available.".
Proof.
  intros Hd Hget Hst Hjson Hlist Hparse.
  unfold Weather.get_weather, Weather.weather_url. simpl opt_truthy.
  rewrite Hd, Hget. simpl. rewrite Hst. simpl. rewrite Hjson. simpl.
  rewrite Hparse. simpl. rewrite Hlist. reflexivity.
Qed.

(** C10.  When a non-empty date string is given that [strptime] rejects
    with [ValueError] and the forecast endpoint answers 200, [get_weather]
    raises: it returns no text at all, and with a JSON payload the
    exception is the [ValueError] of the date parsing. *)
Theorem get_weather_bad_date_raises
    (location d : string) (resp : response) :
  str_truthy d = true ->
  requests_get (forecast_url location) = Return resp ->
  status_code resp = 200 ->
  strptime d = Raise ValueError ->
  returns (get_weather location (Some d)) = false /\
  (forall data, response_json resp = Return data ->
     get_weather location (Some d) = Raise ValueError).
Proof.
  intros Hd Hget Hst Hparse.
  unfold Weather.get_weather, Weather.weather_url. simpl opt_truthy.
  rewrite Hd, Hget. simpl. rewrite Hst. simpl.
  destruct (response_json resp) as [data|e]; simpl.
  - rewrite Hparse. simpl. split; [reflexivity|]. intros; reflexivity.
  - split; [reflexivity|]. intros data H. discriminate H.
Qed.
End Tool.

(** A failure of [requests.get] leaves the tool as it is. *)
Lemma get_weather_request_failure
    (key : string) (requests_get : string -> result response)
    (strptime : string -> result Clock.datetime) (now : Clock.datetime)
    (fromtimestamp : json -> result Clock.datetime)
    (strftime : Clock.datetime -> string)
    (location : string) (date : option string) (e : exn) :
  requests_get (weather_url key location date) = Raise e ->
  get_weather key requests_get strptime now fromtimestamp strftime
    location date = Raise e.
Proof.
  intros H. unfold get_weather. now rewrite H.
Qed.

(** C3, on the code.  [get_weather] has no handler: on a 200 answer whose
    payload lacks [main] (current conditions, or the selected forecast
    entry) the [KeyError] of the subscript leaves the tool as it is, and so
    does the exception of a failed request; no text is returned and nothing
    wraps the failure. *)
Theorem get_weather_failure_escapes_unwrapped :
  run (always (ok (JObj []))) 0 "Pune" None = Raise (KeyError "main") /\
  run (always (ok (JObj [("list", JArr [JObj [("dt", JInt t2)]])]))) 0
    "Pune" (Some "2024-02-29") = Raise (KeyError "main") /\
  run (always (Raise (RequestException "ConnectionError"))) 0 "Pune" None
    = Raise (RequestException "ConnectionError").
Proof. repeat split; reflexivity. Qed.

(** The forecast point at the requested instant is the one reported. *)
Example exact_match_is_selected :
  run (always (ok (JObj [("list", JArr three_points)]))) 0 "Pune"
    (Some "2024-02-29")
  = Return (summary_text Clock.strftime
              (mkView (t2 * 1000000) (JFloat "18.2") (JStr "overcast clouds")
                 (JInt 78))).
Proof. reflexivity. Qed.

(** Of two points at the same distance the one met first is reported. *)
Example tie_takes_first :
  run (always (ok (JObj [("list", JArr [entry t3 "17.9" "clear sky" 80;
                                         entry t1 "19.4" "light rain" 71])])))
    0 "Pune" (Some "2024-02-29")
  = Return (summary_text Clock.strftime
              (mkView (t3 * 1000000) (JFloat "17.9") (JStr "clear sky")
                 (JInt 80))).
Proof. reflexivity. Qed.

Example summary_date_text :
  Clock.strftime (t3 * 1000000) = "2024-02-29 03:00".
Proof. reflexivity. Qed.

Lemma selects_closest_witness :
  Clock.strptime "2024-02-29" = Return (t2 * 1000000) /\
  exists pre e post v,
    three_points = (pre ++ e :: post)%list /\
    entry_view (Clock.fromtimestamp 0) e = Return v /\
    (forall f v', In f three_points ->
       entry_view (Clock.fromtimestamp 0) f = Return v' ->
       Z.abs (v_time v - t2 * 1000000) <= Z.abs (v_time v' - t2 * 1000000)) /\
    (forall f v', In f pre ->
       entry_view (Clock.fromtimestamp 0) f = Return v' ->
       Z.abs (v_time v - t2 * 1000000) < Z.abs (v_time v' - t2 * 1000000)) /\
    run (always (ok (JObj [("list", JArr three_points)]))) 0 "Pune"
      (Some "2024-02-29")
    = Return (summary_text Clock.strftime v).
Proof.
  split; [reflexivity|].
  apply (get_weather_selects_closest "k"
           (always (ok (JObj [("list", JArr three_points)])))
           Clock.strptime 0 (Clock.fromtimestamp 0) Clock.strftime
           "Pune" "2024-02-29"
           (mkResponse 200 (Return (JObj [("list", JArr three_points)])))
           [("list", JArr three_points)] three_points (t2 * 1000000));
    try reflexivity.
  - discriminate.
  - repeat constructor.
Defined.

Lemma non200_witness :
  404 <> 200 /\
  run (always (Return (mkResponse 404 (Raise JSONDecodeError)))) 0 "Pune"
    (Some "2024-02-29")
  = Return "Error fetching weather: 404".
Proof.
  split; [lia|].
  apply (get_weather_non200_text "k"
           (always (Return (mkResponse 404 (Raise JSONDecodeError))))
           Clock.strptime 0 (Clock.fromtimestamp 0) Clock.strftime
           "Pune" (Some "2024-02-29")
           (mkResponse 404 (Raise JSONDecodeError)));
    [reflexivity|simpl; lia].
Defined.

Lemma empty_forecast_witness :
  Clock.strptime "2024-02-29" = Return (t2 * 1000000) /\
  run (always (ok (JObj [("cod", JStr "200"); ("list", JArr [])]))) 0 "Pune"
    (Some "2024-02-29")
  = Return "No forecast available.".
Proof.
  split; [reflexivity|].
  apply (get_weather_empty_forecast "k"
           (always (ok (JObj [("cod", JStr "200"); ("list", JArr [])])))
           Clock.strptime 0 (Clock.fromtimestamp 0) Clock.strftime
           "Pune" "2024-02-29"
           (mkResponse 200 (Return (JObj [("cod", JStr "200"); ("list", JArr [])])))
           [("cod", JStr "200"); ("list", JArr [])] (t2 * 1000000));
    reflexivity.
Defined.

Lemma bad_date_witness :
  Clock.strptime "tomorrow" = Raise ValueError /\
  run (always (ok (JObj [("list", JArr three_points)]))) 0 "Pune"
    (Some "tomorrow")
  = Raise ValueError.
Proof.
  split; [reflexivity|].
  destruct (get_weather_bad_date_raises "k"
              (always (ok (JObj [("list", JArr three_points)])))
              Clock.strptime 0 (Clock.fromtimestamp 0) Clock.strftime
              "Pune" "tomorrow"
              (mkResponse 200 (Return (JObj [("list", JArr three_points)])))
              eq_refl eq_refl eq_refl eq_refl) as [_ H].
  exact (H _ eq_refl).
Defined.

End WeatherFacts.

(** ** The plan store *)

Module StoreFacts.
Import Py Store.

Lemma insert_desc_in (r x : row) (l : list row) :
  In x (insert_desc r l) <-> x = r \/ In x l.
Proof.
  induction l as [|y rest IH]; simpl.
  - intuition.
  - destruct (created_at y <=? created_at r); simpl; [intuition|].
    rewrite IH. intuition.
Qed.

Lemma order_by_in (x : row) (l : list row) :
  In x (order_by_created_at_desc l) <-> In x l.
Proof.
  induction l as [|y rest IH]; simpl; [reflexivity|].
  rewrite insert_desc_in, IH. intuition.
Qed.

Lemma descending_cons (x : row) (l : list row) :
  descending (x :: l) = true <->
  (forall y, In y l -> created_at y <= created_at x) /\ descending l = true.
Proof.
  revert x. induction l as [|y rest IH]; intros x.
  - simpl. intuition.
  - change (descending (x :: y :: rest))
      with ((created_at y <=? created_at x) && descending (y :: rest)).
    rewrite andb_true_iff, Z.leb_le. split.
    + intros [Hxy Hd]. split; [|exact Hd].
      intros z [<-|Hz]; [exact Hxy|].
      apply IH in Hd as [Hall _]. specialize (Hall z Hz). lia.
    + intros [Hall Hd]. split; [apply Hall; now left|exact Hd].
Qed.

Lemma insert_desc_descending (r : row) (l : list row) :
  descending l = true -> descending (insert_desc r l) = true.
Proof.
  induction l as [|y rest IH]; intros Hd; [reflexivity|].
  simpl insert_desc. destruct (created_at y <=? created_at r) eqn:E.
  - apply Z.leb_le in E. apply descending_cons. split; [|exact Hd].
    apply descending_cons in Hd as [Hall _].
    intros z [<-|Hz]; [exact E|]. specialize (Hall z Hz). lia.
  - apply Z.leb_gt in E. apply descending_cons in Hd as [Hall Hd].
    apply descending_cons. split; [|now apply IH].
    intros z Hz. apply insert_desc_in in Hz as [->|Hz]; [lia|now apply Hall].
Qed.

Lemma order_by_descending (l : list row) :
  descending (order_by_created_at_desc l) = true.
Proof.
  induction l as [|y rest IH]; [reflexivity|].
  simpl. now apply insert_desc_descending.
Qed.








End StoreFacts.

(** ** The script *)

Module AppFacts.
Import Py App.

Lemma saves_app (l l' : list event) :
  saves (l ++ l') = (saves l ++ saves l')%list.
Proof.
  induction l as [|ev rest IH]; [reflexivity|].
  destruct ev; simpl; rewrite IH; reflexivity.
Qed.

Lemma agent_calls_app (l l' : list event) :
  filter is_agent_call (l ++ l')
  = (filter is_agent_call l ++ filter is_agent_call l')%list.
Proof. apply filter_app. Qed.

Section Script.
Variable agent_executor_invoke : string -> result json.
Variable now : Z.

Local Notation new_plan_page := (new_plan_page agent_executor_invoke now).
Local Notation handed_over := (handed_over agent_executor_invoke).

Lemma new_plan_page_saves (goal : string) (w : world) :
  str_truthy goal = true ->
  saves (log (snd (new_plan_page goal true w)))
  = (saves (log w) ++ handed_over goal)%list.
Proof.
  intros Hg. unfold App.new_plan_page, App.handed_over. rewrite Hg.
  unfold save_plan, seq, emit, lift, on_db. cbn [db log].
  destruct (agent_executor_invoke goal) as [response|e]; cbn [snd log].
  - destruct (getitem response "output") as [plan|e]; cbn [snd db log fst].
    + destruct (Store.save_plan now goal plan (db w)); cbn [snd db log];
        repeat rewrite saves_app; simpl; repeat rewrite app_nil_r;
        reflexivity.
    + repeat rewrite saves_app. simpl. now repeat rewrite app_nil_r.
  - repeat rewrite saves_app. simpl. now repeat rewrite app_nil_r.
Qed.

(** C6, as the code has it.  In a planning run (the button pressed on a
    non-empty goal), [save_plan] is called exactly once, with the goal and
    the [output] of the executor's answer, when the executor returns an
    answer with an [output], whatever that text says, and is not called
    otherwise.  With an output text and the table in place, such a run
    appends exactly one record holding goal and text.  When the executor
    raises, the run ends with that error, no store call is made and the
    database is unchanged. *)
Theorem plan_stored_once_iff_executor_returns
    (goal : string) (w : world) (t : Store.table) :
  str_truthy goal = true ->
  db w = Some t ->
  saves (log (snd (new_plan_page goal true w)))
    = (saves (log w) ++ handed_over goal)%list /\
  (forall response plan,
     agent_executor_invoke goal = Return response ->
     getitem response "output" = Return (JStr plan) ->
     exists w',
       new_plan_page goal true w = (Ok tt, w') /\
       saves (log w') = (saves (log w) ++ [(goal, JStr plan)])%list /\
       db w' = Some (Store.mkTable
                       (Store.rows t ++
                          [Store.mkRow (Store.last_id t + 1) goal (JStr plan) now])
                       (Store.last_id t + 1))) /\
  (forall e,
     agent_executor_invoke goal = Raise e ->
     exists w',
       new_plan_page goal true w = (Crashed e, w') /\
       saves (log w') = saves (log w) /\
       db w' = db w).
Proof.
  intros Hg Hdb. split; [now apply new_plan_page_saves|]. split.
  - intros response plan Hinv Hout.
    unfold App.new_plan_page. rewrite Hg.
    unfold save_plan, seq, emit, lift, on_db. cbn [db log].
    rewrite Hinv, Hout, Hdb. cbn [Store.save_plan Store.bindable bind db log].
    eexists. split; [reflexivity|]. cbn [db log]. split; [|reflexivity].
    repeat rewrite saves_app. simpl. now repeat rewrite app_nil_r.
  - intros e Hinv.
    unfold App.new_plan_page. rewrite Hg.
    unfold seq, emit, lift. cbn [db log]. rewrite Hinv.
    eexists. split; [reflexivity|]. cbn [db log]. split; [|reflexivity].
    repeat rewrite saves_app. simpl. now repeat rewrite app_nil_r.
Qed.
End Script.

Lemma plan_stored_once_witness :
  str_truthy "Plan a 1-day trip to Pune" = true /\
  db fresh = Some (Store.mkTable [] 0) /\
  saves (log (snd (new_plan_page (answers "Day 1: walk") 7
                     "Plan a 1-day trip to Pune" true fresh)))
  = [("Plan a 1-day trip to Pune", JStr "Day 1: walk")].
Proof.
  split; [reflexivity|]. split; [reflexivity|].
  destruct (plan_stored_once_iff_executor_returns (answers "Day 1: walk") 7
              "Plan a 1-day trip to Pune" fresh (Store.mkTable [] 0)
              eq_refl eq_refl) as (H & _ & _).
  exact H.
Defined.

(** The page stores whatever text the executor returns, whatever it says. *)
Remark returned_text_is_stored :
  new_plan_page (answers stopped_text) 7 "Plan a 1-day trip to Pune" true fresh
  = (Ok tt,
     mkWorld
       (Some (Store.mkTable
                [Store.mkRow 1 "Plan a 1-day trip to Pune" (JStr stopped_text) 7]
                1))
       [StSpinner "Generating plan...";
        AgentInvoke "Plan a 1-day trip to Pune";
        StMarkdown "### Generated Plan";
        StWrite (JStr stopped_text);
        SavePlan "Plan a 1-day trip to Pune" (JStr stopped_text);
        StSuccess "Plan saved!"]).
Proof. reflexivity. Qed.

(** An executor that raises leaves the store as it was. *)
Remark raised_error_stores_nothing :
  new_plan_page gives_up 7 "Plan a 1-day trip to Pune" true fresh
  = (Crashed (AgentError "could not reach a final answer"),
     mkWorld (db fresh)
       [StSpinner "Generating plan...";
        AgentInvoke "Plan a 1-day trip to Pune"]).
Proof. reflexivity. Qed.


(** C6 as stated fails: a run of the loop that ends in [Failed] hands its
    error description back as the output, and the page stores it as a plan
    and reports it saved. *)
Lemma failed_run_is_stored :
  Loop.phase (Loop.run 2 Agent.plain_render Agent.stubborn []
                "Plan a 1-day trip to Pune")
  = Loop.Failed Loop.cap_error /\
  new_plan_page (Agent.invoke 2 Agent.plain_render Agent.stubborn []) 7
    "Plan a 1-day trip to Pune" true fresh
  = (Ok tt,
     mkWorld
       (Some (Store.mkTable
                [Store.mkRow 1 "Plan a 1-day trip to Pune"
                   (JStr Loop.cap_error) 7]
                1))
       [StSpinner "Generating plan...";
        AgentInvoke "Plan a 1-day trip to Pune";
        StMarkdown "### Generated Plan";
        StWrite (JStr Loop.cap_error);
        SavePlan "Plan a 1-day trip to Pune" (JStr Loop.cap_error);
        StSuccess "Plan saved!"]).
Proof. split; reflexivity. Qed.

End AppFacts.

(** ** The response parser *)

Module ParserFacts.
Import Parser.

Lemma strip_prefix_app (m s : string) : strip_prefix m (m ++ s) = Some s.
Proof.
  induction m as [|a m IH]; simpl; [now destruct s|].
  now rewrite Ascii.eqb_refl.
Qed.

Lemma strip_prefix_some (m : string) :
  forall s rest, strip_prefix m s = Some rest -> s = m ++ rest.
Proof.
  induction m as [|a m IH]; intros s rest H.
  - destruct s; simpl in H; injection H as <-; reflexivity.
  - destruct s as [|b s]; simpl in H; [discriminate|].
    destruct (Ascii.eqb a b) eqn:E; [|discriminate].
    apply Ascii.eqb_eq in E as <-. simpl. f_equal. now apply IH.
Qed.

Lemma split_first_sound (m : string) :
  forall s before after,
    split_first m s = Some (before, after) -> s = before ++ m ++ after.
Proof.
  induction s as [|c s IH]; intros before after H; simpl in H.
  - destruct (strip_prefix m "") as [rest|] eqn:E; [|discriminate].
    injection H as <- <-. simpl. now apply strip_prefix_some.
  - destruct (strip_prefix m (String c s)) as [rest|] eqn:E.
    + injection H as <- <-. simpl. now apply strip_prefix_some.
    + destruct (split_first m s) as [[b a]|] eqn:E'; [|discriminate].
      injection H as <- <-. simpl. f_equal. now apply IH.
Qed.

Lemma split_first_least (m : string) :
  forall s before after,
    split_first m s = Some (before, after) ->
    forall before' after',
      s = before' ++ m ++ after' ->
      (String.length before <= String.length before')%nat.
Proof.
  induction s as [|c s IH]; intros before after H before' after' Hs;
    simpl in H.
  - destruct (strip_prefix m "") as [rest|] eqn:E; [|discriminate].
    injection H as <- <-. apply Nat.le_0_l.
  - destruct (strip_prefix m (String c s)) as [rest|] eqn:E.
    + injection H as <- <-. apply Nat.le_0_l.
    + destruct (split_first m s) as [[b a]|] eqn:E'; [|discriminate].
      injection H as <- <-.
      destruct before' as [|c' before'].
      * simpl in Hs. rewrite Hs, strip_prefix_app in E. discriminate.
      * simpl in Hs. injection Hs as _ Hs. simpl.
        apply le_n_S. now apply (IH b a eq_refl before' after').
Qed.

Lemma split_first_complete (m : string) :
  forall before after,
    exists before0 after0,
      split_first m (before ++ m ++ after) = Some (before0, after0).
Proof.
  induction before as [|c before IH]; intros after.
  - simpl. exists "", after.
    destruct (m ++ after) eqn:E; simpl;
      rewrite <- E, strip_prefix_app; reflexivity.
  - simpl. destruct (strip_prefix m (String c (before ++ m ++ after))).
    + eauto.
    + destruct (IH after) as (b0 & a0 & ->). eauto.
Qed.

(** C9.  Whenever the utterance contains "Final Answer:", whatever precedes
    the marker (Action text included) and whatever follows it (further
    markers included), [parse] returns as the final answer exactly the text
    after the first occurrence of the marker. *)
Theorem parse_final_answer_first_marker (before after : string) :
  exists before0 after0,
    before ++ final_marker ++ after = before0 ++ final_marker ++ after0 /\
    (forall b a, before ++ final_marker ++ after = b ++ final_marker ++ a ->
       (String.length before0 <= String.length b)%nat) /\
    parse (before ++ final_marker ++ after) = Parsed (FinalAnswer after0).
Proof.
  destruct (split_first_complete final_marker before after)
    as (before0 & after0 & H).
  exists before0, after0. split; [|split].
  - now apply split_first_sound.
  - intros b a. now apply (split_first_least final_marker _ before0 after0).
  - unfold parse. now rewrite H.
Qed.

(** An Action before the marker does not change the answer, and a second
    marker stays part of it. *)
Example parse_action_then_final :
  parse "Thought: done
Action: get_weather
Action Input: Pune
Final Answer: Day 1: rest. Final Answer: none"
  = Parsed (FinalAnswer " Day 1: rest. Final Answer: none").
Proof. reflexivity. Qed.

Example parse_action :
  parse "Thought: look it up
Action: get_weather
Action Input: Pune"
  = Parsed (ActionRequest "get_weather" "Pune").
Proof. reflexivity. Qed.

Example parse_neither :
  parse "I do not know" = ParseError "I do not know".
Proof. reflexivity. Qed.

End ParserFacts.

(** ** The reasoning loop *)

Module LoopFacts.
Import Parser Loop.

Section Run.
Variable cap : nat.
Variable render : string -> list entry -> string.
Variable backend : nat -> string -> string.
Variable registry : list (string * (string -> string + string)).
Variable goal : string.

Local Notation step := (step cap render backend registry goal).
Local Notation steps := (steps cap render backend registry goal).
Local Notation run := (run cap render backend registry goal).
Local Notation budget := (budget cap).
Local Notation sound := (sound cap backend).

Lemma step_terminal (c : config) :
  is_terminal (phase c) = true -> step c = c.
Proof.
  unfold Loop.step. destruct (phase c); simpl; intros H;
    try discriminate H; reflexivity.
Qed.

Lemma step_sound (c : config) : sound c -> sound (step c).
Proof.
  intros [Hr Hp]. unfold Loop.step.
  destruct (phase c) eqn:Hph.
  - destruct (Nat.leb cap (rounds c)) eqn:Hcap.
    + split; [exact Hr|reflexivity].
    + apply Nat.leb_gt in Hcap.
      destruct (parse _) as [[tool argument|plan]|bad] eqn:Hparse;
        (split; [simpl; lia|simpl; auto]).
      exists (rounds c), (render goal (transcript c)). auto.
  - destruct (invoke registry tool argument); split; simpl; auto.
  - split; [exact Hr|]. now rewrite Hph.
  - split; [exact Hr|]. now rewrite Hph.
Qed.

Lemma steps_sound (n : nat) : forall c, sound c -> sound (steps n c).
Proof.
  induction n as [|n IH]; intros c H; simpl; [exact H|].
  apply IH. now apply step_sound.
Qed.

Lemma budget_terminal (c : config) :
  budget c = 0%nat -> is_terminal (phase c) = true.
Proof.
  unfold Loop.budget. destruct (phase c); simpl; intros H; try lia; reflexivity.
Qed.

Lemma step_budget (c : config) :
  is_terminal (phase c) = false -> (budget (step c) < budget c)%nat.
Proof.
  unfold Loop.step, Loop.budget. destruct (phase c) eqn:Hph; simpl;
    intros H; try discriminate H.
  - destruct (Nat.leb cap (rounds c)) eqn:Hcap.
    + simpl. lia.
    + apply Nat.leb_gt in Hcap.
      destruct (parse _) as [[tool argument|plan]|bad]; simpl; lia.
  - destruct (invoke registry tool argument); simpl; lia.
Qed.

Lemma steps_terminal (n : nat) :
  forall c, (budget c <= n)%nat -> is_terminal (phase (steps n c)) = true.
Proof.
  induction n as [|n IH]; intros c Hb; simpl.
  - apply budget_terminal. lia.
  - destruct (is_terminal (phase c)) eqn:Ht.
    + rewrite step_terminal by exact Ht. apply IH.
      unfold Loop.budget in *. destruct (phase c); simpl in *;
        try discriminate Ht; lia.
    + apply IH. pose proof (step_budget c Ht). lia.
Qed.

Lemma run_terminal : is_terminal (phase run) = true.
Proof.
  apply steps_terminal. unfold Loop.budget, start. simpl. lia.
Qed.

Lemma start_sound : sound start.
Proof. split; [apply Nat.le_0_l|exact I]. Qed.

(** C2.  Whatever the backend answers and whatever the tools do, the
    reasoning loop reaches a terminal state within [2 * cap + 1] transitions
    and calls the backend at most [cap] times on the way; it ends either in
    [Done] with a final answer parsed from one of those at most [cap]
    answers, or in [Failed] with the could-not-finish error. *)
Theorem loop_ends_within_cap :
  is_terminal (phase run) = true /\
  (forall n, (rounds (steps n start) <= cap)%nat) /\
  match phase run with
  | Done plan =>
      exists n prompt,
        (n < cap)%nat /\ parse (backend n prompt) = Parsed (FinalAnswer plan)
  | Failed e => e = cap_error
  | _ => False
  end.
Proof.
  pose proof run_terminal as Ht.
  split; [exact Ht|]. split.
  - intros n. apply (steps_sound n start start_sound).
  - destruct (steps_sound (2 * cap + 1) start start_sound) as [_ Hp].
    fold run in Hp. destruct (phase run); try discriminate Ht; exact Hp.
Qed.

(** Without a final answer among the answers of the backend, the run
    fails. *)
Corollary loop_fails_without_final_answer :
  (forall n prompt plan,
     (n < cap)%nat -> parse (backend n prompt) <> Parsed (FinalAnswer plan)) ->
  phase run = Failed cap_error.
Proof.
  intros Hno. pose proof run_terminal as Ht.
  destruct (steps_sound (2 * cap + 1) start start_sound) as [_ Hp].
  fold run in Hp. destruct (phase run) as [| |plan|e]; try discriminate Ht.
  - destruct Hp as (n & prompt & Hn & Hp). now apply Hno in Hp.
  - now subst.
Qed.
End Run.

End LoopFacts.

(** ** More on [min] with a key *)

Module MinMore.
Import Py MinFacts.

Section Keys.
Context {A : Type}.
Variable key : A -> result Z.

Lemma key_of_return (x : A) :
  returns (key x) = true -> key x = Return (key_of key x).
Proof.
  unfold key_of. destruct (key x); [reflexivity|discriminate].
Qed.

Lemma min_scan_keys_return (l : list A) :
  forall best bestk m,
    min_scan Z.ltb key best bestk l = Return m ->
    forall x, In x l -> returns (key x) = true.
Proof.
  induction l as [|y rest IH]; intros best bestk m H x Hx; [contradiction|].
  simpl in H. destruct (key y) as [k|e] eqn:Hy; [|discriminate H].
  simpl in H. destruct Hx as [<-|Hx]; [now rewrite Hy|].
  destruct (k <? bestk); eapply IH; eauto.
Qed.

Lemma min_by_keys_return (l : list A) (o : option A) :
  min_by Z.ltb key l = Return o ->
  forall x, In x l -> returns (key x) = true.
Proof.
  destruct l as [|y rest]; intros H x Hx; [contradiction|].
  simpl in H. destruct (key y) as [k|e] eqn:Hy; [|discriminate H].
  simpl in H. destruct Hx as [<-|Hx]; [now rewrite Hy|].
  destruct (min_scan Z.ltb key y k rest) as [m|e] eqn:Hm; [|discriminate H].
  eapply min_scan_keys_return; eauto.
Qed.

(** When [min] returns, it returns the first item of least key. *)
Lemma min_by_first_min (x : A) (l : list A) (o : option A) :
  min_by Z.ltb key (x :: l) = Return o ->
  o = Some (first_min (key_of key) x l).
Proof.
  intros H. pose proof (min_by_keys_return _ _ H) as Hk.
  rewrite (min_by_pure (key_of key)) in H
    by (intros y Hy; apply key_of_return; now apply Hk).
  now injection H as <-.
Qed.

Lemma min_scan_raise (pre : list A) :
  forall best bestk f post e,
    (forall x, In x pre -> returns (key x) = true) ->
    key f = Raise e ->
    min_scan Z.ltb key best bestk (pre ++ f :: post) = Raise e.
Proof.
  induction pre as [|y pre IH]; intros best bestk f post e Hpre Hf; simpl.
  - now rewrite Hf.
  - destruct (key y) as [k|e'] eqn:Hy.
    + simpl. destruct (k <? bestk); apply IH; auto;
        intros x Hx; apply Hpre; now right.
    + specialize (Hpre y (or_introl eq_refl)). rewrite Hy in Hpre.
      discriminate.
Qed.

(** The key of every item is computed: the first one that raises ends the
    [min], wherever the item stands. *)
Lemma min_by_raise (pre : list A) (f : A) (post : list A) (e : exn) :
  (forall x, In x pre -> returns (key x) = true) ->
  key f = Raise e ->
  min_by Z.ltb key (pre ++ f :: post) = Raise e.
Proof.
  intros Hpre Hf. destruct pre as [|y pre]; simpl.
  - now rewrite Hf.
  - destruct (key y) as [k|e'] eqn:Hy.
    + simpl. rewrite (min_scan_raise pre y k f post e); auto.
      intros x Hx. apply Hpre. now right.
    + specialize (Hpre y (or_introl eq_refl)). rewrite Hy in Hpre.
      discriminate.
Qed.
End Keys.

End MinMore.

(** ** More on the weather tool *)

Module WeatherMore.
Import Py Weather MinFacts MinMore WeatherFacts.

Section Tool.
Variable OPENWEATHER_API_KEY : string.
Variable requests_get : string -> result response.
Variable strptime : string -> result Clock.datetime.
Variable now : Clock.datetime.
Variable fromtimestamp : json -> result Clock.datetime.
Variable strftime : Clock.datetime -> string.

Local Notation get_weather :=
  (get_weather OPENWEATHER_API_KEY requests_get strptime now fromtimestamp
     strftime).
Local Notation weather_url := (weather_url OPENWEATHER_API_KEY).
Local Notation forecast_url := (forecast_url OPENWEATHER_API_KEY).
Local Notation current_url := (current_url OPENWEATHER_API_KEY).
Local Notation entry_view := (entry_view fromtimestamp).
Local Notation distance := (distance fromtimestamp).
Local Notation forecast_summary := (forecast_summary fromtimestamp strftime).
Local Notation summary_text := (summary_text strftime).

Lemma distance_truthy (target : Clock.datetime) (f : json) (k : Z) :
  distance target f = Return k -> truthy f = true.
Proof.
  unfold Weather.distance. intros H. inv_bind H.
  destruct f as [| | | | | |kv]; try discriminate E.
  destruct kv; [discriminate E|reflexivity].
Qed.

Lemma forecast_summary_view (f : json) (s : string) :
  forecast_summary (Some f) = Return s ->
  exists v, entry_view f = Return v /\ s = summary_text v.
Proof.
  unfold Weather.forecast_summary, Weather.entry_view. intros H.
  repeat inv_bind H. injection H as <-.
  eexists. split; reflexivity.
Qed.

(** X1.  Without a date (none, or the empty string) the tool asks the
    current-conditions endpoint, and on a 200 answer that carries
    [main.temp], [weather[0].description] and [main.humidity] it returns the
    JSON text of exactly these three fields, in this order, without a
    date. *)
Theorem current_conditions_summary
    (location : string) (date : option string) (resp : response)
    (data main weather w0 temp descr hum : json) :
  opt_truthy date = false ->
  requests_get (current_url location) = Return resp ->
  status_code resp = 200 ->
  response_json resp = Return data ->
  getitem data "main" = Return main ->
  getitem main "temp" = Return temp ->
  getitem data "weather" = Return weather ->
  getindex weather 0 = Return w0 ->
  getitem w0 "description" = Return descr ->
  getitem main "humidity" = Return hum ->
  get_weather location date
  = Return (dumps (JObj [("temp", temp); ("weather", descr);
                         ("humidity", hum)])).
Proof.
  intros Hd Hget Hst Hjson Hmain Htemp Hw Hw0 Hdescr Hhum.
  unfold Weather.get_weather, Weather.weather_url, current_summary.
  rewrite Hd, Hget. cbn [bind]. rewrite Hst. cbn [Z.eqb Pos.eqb].
  rewrite Hjson. cbn [bind]. rewrite Hmain. cbn [bind]. rewrite Htemp.
  cbn [bind]. rewrite Hw. cbn [bind]. rewrite Hw0. cbn [bind].
  rewrite Hdescr. cbn [bind]. rewrite Hhum. reflexivity.
Qed.

(** X2.  Whatever the payload, a text returned for a dated request on a 200
    answer is either "No forecast available.", for a list with nothing to
    iterate over, or the summary of a member of the list: the first one at
    least distance from the requested date, every member having a readable
    timestamp. *)
Theorem forecast_text_is_none_or_closest
    (location d : string) (resp : response) (s : string) :
  str_truthy d = true ->
  requests_get (forecast_url location) = Return resp ->
  status_code resp = 200 ->
  get_weather location (Some d) = Return s ->
  exists data target forecasts items,
    response_json resp = Return data /\
    strptime d = Return target /\
    dict_get data "list" (JArr []) = Return forecasts /\
    iterate forecasts = Return items /\
    ((items = [] /\ s = "No forecast available.") \/
     exists pre e post v,
       items = (pre ++ e :: post)%list /\
       entry_view e = Return v /\
       s = summary_text v /\
       (forall f, In f items ->
          exists k, distance target f = Return k /\
                    Z.abs (v_time v - target) <= k) /\
       (forall f, In f pre ->
          exists k, distance target f = Return k /\
                    Z.abs (v_time v - target) < k)).
Proof.
  intros Hd Hget Hst H.
  unfold Weather.get_weather, Weather.weather_url in H.
  simpl opt_truthy in H. rewrite Hd, Hget in H. cbn [bind] in H.
  rewrite Hst in H. cbn [Z.eqb Pos.eqb] in H.
  destruct (response_json resp) as [data|] eqn:Hdata; [|discriminate H].
  cbn [bind strptime_arg] in H.
  destruct (strptime d) as [target|] eqn:Hparse; [|discriminate H].
  cbn [bind] in H.
  destruct (dict_get data "list" (JArr [])) as [forecasts|] eqn:Hlist;
    [|discriminate H].
  cbn [bind] in H.
  destruct (iterate forecasts) as [items|] eqn:Hit; [|discriminate H].
  cbn [bind] in H.
  destruct (min_by Z.ltb (distance target) items) as [closest|] eqn:Hmin;
    [|discriminate H].
  cbn [bind] in H.
  exists data, target, forecasts, items.
  repeat (split; [assumption || reflexivity|]).
  destruct items as [|x rest].
  - left. simpl in Hmin. injection Hmin as <-. simpl in H.
    injection H as <-. auto.
  - right. pose proof (min_by_keys_return _ _ _ Hmin) as Hkeys.
    apply min_by_first_min in Hmin. subst closest.
    set (kf := key_of (distance target)) in *.
    set (e := first_min kf x rest) in *.
    destruct (first_min_split kf x rest) as (pre & post & Hsplit & Hpre & Hpost).
    fold e in Hsplit, Hpre, Hpost.
    assert (Hin : In e (x :: rest)).
    { rewrite Hsplit. apply in_or_app. right. now left. }
    assert (Hk : forall f, In f (x :: rest) -> distance target f = Return (kf f)).
    { intros f Hf. apply key_of_return. now apply Hkeys. }
    cbn [truthy_opt] in H.
    rewrite (distance_truthy target e (kf e) (Hk e Hin)) in H.
    apply forecast_summary_view in H as (v & Hv & ->).
    assert (He : kf e = Z.abs (v_time v - target)).
    { pose proof (entry_view_distance fromtimestamp target e v Hv) as Hdist.
      rewrite (Hk e Hin) in Hdist. now injection Hdist. }
    exists pre, e, post, v. repeat split; auto.
    + intros f Hf. exists (kf f). split; [now apply Hk|].
      rewrite <- He. rewrite Hsplit in Hf.
      apply in_app_or in Hf as [Hf|[<-|Hf]].
      * specialize (Hpre f Hf). lia.
      * lia.
      * now apply Hpost.
    + intros f Hf. exists (kf f). split.
      * apply Hk. rewrite Hsplit. apply in_or_app. now left.
      * rewrite <- He. now apply Hpre.
Qed.

(** X3.  The timestamp of every forecast point is read before one is
    chosen: a point whose timestamp cannot be read makes the dated request
    raise that point's exception, wherever it stands in the list and however
    far it is from the requested date. *)
Theorem unreadable_point_raises
    (location d : string) (resp : response) (kv : list (string * json))
    (pre : list json) (f : json) (post : list json)
    (target : Clock.datetime) (e : exn) :
  str_truthy d = true ->
  requests_get (forecast_url location) = Return resp ->
  status_code resp = 200 ->
  response_json resp = Return (JObj kv) ->
  assoc "list" kv = Some (JArr (pre ++ f :: post)) ->
  strptime d = Return target ->
  Forall (fun x => returns (distance target x) = true) pre ->
  distance target f = Raise e ->
  get_weather location (Some d) = Raise e.
Proof.
  intros Hd Hget Hst Hjson Hlist Hparse Hpre Hf.
  unfold Weather.get_weather, Weather.weather_url. simpl opt_truthy.
  rewrite Hd, Hget. cbn [bind]. rewrite Hst. cbn [Z.eqb Pos.eqb].
  rewrite Hjson. cbn [bind strptime_arg]. rewrite Hparse.
  cbn [bind dict_get]. rewrite Hlist. cbn [bind iterate].
  rewrite (min_by_raise (distance target) pre f post e); auto.
  now apply Forall_forall.
Qed.
(** X16.  A 200 answer whose JSON payload is not an object (a list, a
    string, a number, null) never yields a text: with or without a date the
    call raises. *)
Theorem non_object_payload_raises
    (location : string) (date : option string) (resp : response)
    (data : json) :
  requests_get (weather_url location date) = Return resp ->
  status_code resp = 200 ->
  response_json resp = Return data ->
  is_object data = false ->
  returns (get_weather location date) = false.
Proof.
  intros Hget Hst Hjson Hobj.
  unfold Weather.get_weather. rewrite Hget. cbn [bind]. rewrite Hst.
  cbn [Z.eqb Pos.eqb]. rewrite Hjson. cbn [bind].
  destruct (opt_truthy date).
  - destruct (strptime_arg strptime date); [|reflexivity]. cbn [bind].
    destruct data; try discriminate Hobj; reflexivity.
  - unfold current_summary. destruct data; try discriminate Hobj; reflexivity.
Qed.
End Tool.

Lemma current_conditions_witness :
  opt_truthy (Some "") = false /\
  run (always (ok current_payload)) 0 "Pune" (Some "")
  = Return (dumps (JObj [("temp", JInt 31); ("weather", JStr "haze");
                         ("humidity", JInt 40)])).
Proof.
  split; [reflexivity|].
  apply (current_conditions_summary "k" (always (ok current_payload))
           Clock.strptime 0 (Clock.fromtimestamp 0) Clock.strftime
           "Pune" (Some "") (mkResponse 200 (Return current_payload))
           current_payload
           (JObj [("temp", JInt 31); ("humidity", JInt 40)])
           (JArr [JObj [("description", JStr "haze")]])
           (JObj [("description", JStr "haze")]));
    reflexivity.
Defined.

Lemma forecast_text_witness :
  run (always (ok (JObj [("list", JArr three_points)]))) 0 "Pune"
    (Some "2024-02-29")
  = Return (summary_text Clock.strftime
              (mkView (t2 * 1000000) (JFloat "18.2") (JStr "overcast clouds")
                 (JInt 78))) /\
  exists data target forecasts items,
    Return (JObj [("list", JArr three_points)]) = Return data /\
    Clock.strptime "2024-02-29" = Return target /\
    dict_get data "list" (JArr []) = Return forecasts /\
    iterate forecasts = Return items /\
    ((items = [] /\
      summary_text Clock.strftime
        (mkView (t2 * 1000000) (JFloat "18.2") (JStr "overcast clouds")
           (JInt 78)) = "No forecast available.") \/
     exists pre e post v,
       items = (pre ++ e :: post)%list /\
       entry_view (Clock.fromtimestamp 0) e = Return v /\
       summary_text Clock.strftime
         (mkView (t2 * 1000000) (JFloat "18.2") (JStr "overcast clouds")
            (JInt 78)) = summary_text Clock.strftime v /\
       (forall f, In f items ->
          exists k, distance (Clock.fromtimestamp 0) target f = Return k /\
                    Z.abs (v_time v - target) <= k) /\
       (forall f, In f pre ->
          exists k, distance (Clock.fromtimestamp 0) target f = Return k /\
                    Z.abs (v_time v - target) < k)).
Proof.
  split; [reflexivity|].
  apply (forecast_text_is_none_or_closest "k"
           (always (ok (JObj [("list", JArr three_points)])))
           Clock.strptime 0 (Clock.fromtimestamp 0) Clock.strftime
           "Pune" "2024-02-29"
           (mkResponse 200 (Return (JObj [("list", JArr three_points)]))));
    reflexivity.
Defined.

Lemma unreadable_point_witness :
  distance (Clock.fromtimestamp 0) (t2 * 1000000)
    (JObj [("main", JObj [("temp", JFloat "17.9"); ("humidity", JInt 80)])])
  = Raise (KeyError "dt") /\
  run (always (ok (JObj [("list", JArr broken_points)]))) 0 "Pune"
    (Some "2024-02-29")
  = Raise (KeyError "dt").
Proof.
  split; [reflexivity|].
  apply (unreadable_point_raises "k"
           (always (ok (JObj [("list", JArr broken_points)])))
           Clock.strptime 0 (Clock.fromtimestamp 0) Clock.strftime
           "Pune" "2024-02-29"
           (mkResponse 200 (Return (JObj [("list", JArr broken_points)])))
           [("list", JArr broken_points)]
           [entry t2 "18.2" "overcast clouds" 78]
           (JObj [("main", JObj [("temp", JFloat "17.9"); ("humidity", JInt 80)])])
           [] (t2 * 1000000));
    try reflexivity.
  repeat constructor.
Defined.

Lemma missing_list_witness :
  assoc "list" [("cod", JStr "200"); ("message", JInt 0)] = None /\
  run (always (ok (JObj [("cod", JStr "200"); ("message", JInt 0)]))) 0
    "Pune" (Some "2024-02-29")
  = Return "No forecast available.".
Proof.
  split; [reflexivity|].
  apply (get_weather_absent_forecast "k"
           (always (ok (JObj [("cod", JStr "200"); ("message", JInt 0)])))
           Clock.strptime 0 (Clock.fromtimestamp 0) Clock.strftime
           "Pune" "2024-02-29"
           (mkResponse 200
              (Return (JObj [("cod", JStr "200"); ("message", JInt 0)])))
           [("cod", JStr "200"); ("message", JInt 0)] (t2 * 1000000));
    reflexivity.
Defined.

Lemma non_object_payload_witness :
  is_object (JArr []) = false /\
  returns (run (always (ok (JArr []))) 0 "Pune" (Some "2024-02-29")) = false.
Proof.
  split; [reflexivity|].
  apply (non_object_payload_raises "k" (always (ok (JArr [])))
           Clock.strptime 0 (Clock.fromtimestamp 0) Clock.strftime
           "Pune" (Some "2024-02-29") (mkResponse 200 (Return (JArr [])))
           (JArr []));
    reflexivity.
Defined.

End WeatherMore.

(** ** More on the plan store *)

Module StoreMore.
Import Py Store StoreFacts.

Lemma save_plan_text (now : Z) (g p : string) (t : table) :
  save_plan now g (JStr p) (Some t)
  = Return (Some (mkTable (rows t ++ [mkRow (last_id t + 1) g (JStr p) now])%list
                    (last_id t + 1))).
Proof. reflexivity. Qed.

(** X5.  Plans stored one after the other are appended to the table in the
    order of the calls, under consecutive ids that continue from the last id
    handed out; the rows already there stay as they are. *)
Theorem saved_plans_numbered_in_order
    (calls : list (Z * string * string)) (t : table) :
  save_all calls (Some t)
  = Return (Some (mkTable (rows t ++ numbered (last_id t + 1) calls)%list
                    (last_id t + Z.of_nat (List.length calls)))).
Proof.
  revert t. induction calls as [|[[now g] p] rest IH]; intros t.
  - simpl. rewrite app_nil_r, Z.add_0_r. now destruct t.
  - cbn [save_all]. rewrite save_plan_text. cbn [bind]. rewrite IH.
    cbn [rows last_id numbered]. rewrite <- app_assoc. cbn [app].
    do 3 f_equal. cbn [List.length]. lia.
Qed.

Lemma insert_desc_length (r : row) (l : list row) :
  List.length (insert_desc r l) = S (List.length l).
Proof.
  induction l as [|x rest IH]; simpl; [reflexivity|].
  destruct (created_at x <=? created_at r); simpl; [reflexivity|].
  now rewrite IH.
Qed.

Lemma order_by_length (l : list row) :
  List.length (order_by_created_at_desc l) = List.length l.
Proof.
  induction l as [|x rest IH]; simpl; [reflexivity|].
  now rewrite insert_desc_length, IH.
Qed.

Lemma insert_desc_split (r : row) (l : list row) :
  exists l1 l2, l = (l1 ++ l2)%list /\ insert_desc r l = (l1 ++ r :: l2)%list.
Proof.
  induction l as [|x rest (l1 & l2 & Hl & Hi)]; simpl.
  - now exists [], [].
  - destruct (created_at x <=? created_at r).
    + now exists [], (x :: rest).
    + exists (x :: l1), l2. simpl. now rewrite <- Hl, Hi.
Qed.

Lemma insert_desc_count (f : row -> bool) (r : row) (l : list row) :
  List.length (filter f (insert_desc r l))
  = List.length (filter f (r :: l)).
Proof.
  destruct (insert_desc_split r l) as (l1 & l2 & -> & ->).
  simpl. rewrite !filter_app. simpl.
  destruct (f r); simpl; rewrite !length_app; simpl; lia.
Qed.

Lemma order_by_count (f : row -> bool) (l : list row) :
  List.length (filter f (order_by_created_at_desc l))
  = List.length (filter f l).
Proof.
  induction l as [|x rest IH]; [reflexivity|].
  cbn [order_by_created_at_desc fold_right].
  rewrite insert_desc_count. simpl.
  change (fold_right insert_desc [] rest) with (order_by_created_at_desc rest).
  destruct (f x); simpl; now rewrite IH.
Qed.

(** X6.  [get_all_plans] lists the table without losing or repeating a
    record (every selection of records has as many members in the listing
    as in the table) and in descending order of [created_at]. *)
Theorem listing_is_complete_and_descending (t : table) :
  exists out,
    get_all_plans (Some t) = Return out /\
    (forall r, In r out <-> In r (rows t)) /\
    (forall f : row -> bool,
       List.length (filter f out) = List.length (filter f (rows t))) /\
    List.length out = List.length (rows t) /\
    descending out = true.
Proof.
  exists (order_by_created_at_desc (rows t)). split; [reflexivity|].
  split; [intros r; apply order_by_in|].
  split; [intros f; apply order_by_count|].
  split; [apply order_by_length|apply order_by_descending].
Qed.

Lemma increasing_cons (x : row) (l : list row) :
  increasing (x :: l) = true ->
  (forall y, In y l -> created_at x < created_at y) /\ increasing l = true.
Proof.
  revert x. induction l as [|y rest IH]; intros x H.
  - split; [intros y []|reflexivity].
  - change (increasing (x :: y :: rest))
      with ((created_at x <? created_at y) && increasing (y :: rest)) in H.
    apply andb_true_iff in H as [Hxy Hrest]. apply Z.ltb_lt in Hxy.
    split; [|exact Hrest].
    intros z [<-|Hz]; [exact Hxy|].
    destruct (IH y Hrest) as [Hall _]. specialize (Hall z Hz). lia.
Qed.

Lemma insert_desc_last (r : row) (l : list row) :
  (forall y, In y l -> created_at r < created_at y) ->
  insert_desc r l = (l ++ [r])%list.
Proof.
  induction l as [|x rest IH]; intros H; simpl; [reflexivity|].
  destruct (created_at x <=? created_at r) eqn:E.
  - apply Z.leb_le in E. specialize (H x (or_introl eq_refl)). lia.
  - f_equal. apply IH. intros y Hy. apply H. now right.
Qed.

(** X7.  When every record of the table was created at a later second than
    the records before it, [get_all_plans] returns the records in exactly
    the reverse of the order in which they were stored. *)
Theorem increasing_clock_lists_newest_first (t : table) :
  increasing (rows t) = true ->
  get_all_plans (Some t) = Return (rev (rows t)).
Proof.
  intros H. cbn [get_all_plans]. f_equal.
  induction (rows t) as [|x rest IH]; [reflexivity|].
  apply increasing_cons in H as [Hall Hrest].
  cbn [order_by_created_at_desc fold_right rev].
  change (fold_right insert_desc [] rest) with (order_by_created_at_desc rest).
  rewrite (IH Hrest). apply insert_desc_last.
  intros y Hy. apply Hall. now apply in_rev.
Qed.

(** X8.  A plan that was stored is listed: after [save_plan], the listing
    holds the new record with its goal, plan and clock under the next id,
    together with every record that was in the table, and nothing else. *)
Theorem stored_plan_is_listed (now : Z) (g p : string) (t : table) :
  exists out,
    (d <- save_plan now g (JStr p) (Some t) ;; get_all_plans d) = Return out /\
    In (mkRow (last_id t + 1) g (JStr p) now) out /\
    (forall r, In r (rows t) -> In r out) /\
    List.length out = S (List.length (rows t)).
Proof.
  rewrite save_plan_text. cbn [bind get_all_plans rows].
  eexists. split; [reflexivity|]. split; [|split].
  - apply order_by_in, in_or_app. right. now left.
  - intros r Hr. apply order_by_in, in_or_app. now left.
  - rewrite order_by_length, length_app. simpl. lia.
Qed.


Lemma increasing_clock_witness :
  increasing [mkRow 1 "a" (JStr "p") 10; mkRow 2 "b" (JStr "q") 11;
              mkRow 3 "c" (JStr "r") 15] = true /\
  get_all_plans
    (Some (mkTable [mkRow 1 "a" (JStr "p") 10; mkRow 2 "b" (JStr "q") 11;
                    mkRow 3 "c" (JStr "r") 15] 3))
  = Return [mkRow 3 "c" (JStr "r") 15; mkRow 2 "b" (JStr "q") 11;
            mkRow 1 "a" (JStr "p") 10].
Proof.
  split; [reflexivity|].
  apply (increasing_clock_lists_newest_first
           (mkTable [mkRow 1 "a" (JStr "p") 10; mkRow 2 "b" (JStr "q") 11;
                     mkRow 3 "c" (JStr "r") 15] 3)).
  reflexivity.
Defined.

End StoreMore.

(** ** More on the script *)

Module AppMore.
Import Py App AppFacts.

Lemma agent_calls_records (l : list Store.row) :
  filter is_agent_call (flat_map record_events l) = [].
Proof. induction l as [|r rest IH]; [reflexivity|exact IH]. Qed.

Lemma saves_records (l : list Store.row) :
  saves (flat_map record_events l) = [].
Proof. induction l as [|r rest IH]; [reflexivity|exact IH]. Qed.

Lemma agent_calls_history (l : list Store.row) :
  filter is_agent_call (history_events l) = [].
Proof. destruct l; [reflexivity|apply agent_calls_records]. Qed.

Lemma saves_history (l : list Store.row) :
  saves (history_events l) = [].
Proof. destruct l; [reflexivity|apply saves_records]. Qed.

Lemma show_plans_run (l : list Store.row) :
  forall w,
    show_plans l w = (Ok tt, mkWorld (db w) (log w ++ flat_map record_events l)).
Proof.
  induction l as [|r rest IH]; intros w.
  - simpl. rewrite app_nil_r. now destruct w.
  - cbn [show_plans]. unfold seq, emit. rewrite IH. cbn [db log].
    rewrite <- !app_assoc. reflexivity.
Qed.

Lemma view_history_run (w : world) (t : Store.table) :
  db w = Some t ->
  view_history_page w
  = (Ok tt,
     mkWorld (db w)
       (log w ++ history_events (Store.order_by_created_at_desc (Store.rows t)))).
Proof.
  intros Hdb. unfold view_history_page, seq, get_all_plans, lift.
  rewrite Hdb. cbn [Store.get_all_plans].
  destruct (Store.order_by_created_at_desc (Store.rows t)) as [|r rest] eqn:E.
  - unfold emit. now rewrite Hdb.
  - rewrite show_plans_run. now rewrite Hdb.
Qed.

Lemma init_db_some (d : Store.database) :
  exists t, Store.init_db d = Some t /\
            forall t0, d = Some t0 -> t = t0.
Proof.
  destruct d as [t|].
  - exists t. split; [reflexivity|]. now intros t0 [= <-].
  - eexists. split; [reflexivity|]. intros t0 H. discriminate H.
Qed.

Section Script.
Variable secrets_file : option (string -> option string).
Variable environ : string -> option string.
Variable agent_executor_invoke : string -> result json.
Variable now : Z.

Local Notation new_plan_page := (new_plan_page agent_executor_invoke now).
Local Notation main :=
  (main secrets_file environ agent_executor_invoke now).
Local Notation handed_over := (handed_over agent_executor_invoke).
Local Notation all_keys := (all_keys secrets_file environ).
Local Notation keys := (keys secrets_file environ).
Local Notation missing := (missing secrets_file environ).
Local Notation requested := (requested secrets_file environ).

Lemma secrets_file_cases :
  secrets_file = None \/ exists file, secrets_file = Some file.
Proof. destruct secrets_file as [file|]; eauto. Qed.

Lemma credential_loaded (file : string -> option string) (name : string) :
  secrets_file = Some file ->
  exists v,
    credential secrets_file environ name = Return v /\
    opt_truthy v = negb (missing name).
Proof.
  intros Hf. unfold credential, secrets_get, App.missing, getenv, or_else.
  rewrite Hf. cbn [bind].
  destruct (file name) as [v|]; cbn [opt_truthy].
  - destruct (str_truthy v) eqn:Hv; eexists; split; try reflexivity;
      cbn [opt_truthy]; rewrite Hv; reflexivity.
  - eexists. split; [reflexivity|]. now rewrite negb_involutive.
Qed.

(** The three assignments with a secrets file to load. *)
Lemma keys_loaded (file : string -> option string) :
  secrets_file = Some file ->
  exists l,
    keys = Return l /\
    forallb opt_truthy l
    = negb (missing "GROQ_API_KEY" || missing "SERPER_API_KEY"
            || missing "OPENWEATHER_API_KEY").
Proof.
  intros Hf. unfold App.keys, GROQ_API_KEY, SERPER_API_KEY,
    App.OPENWEATHER_API_KEY.
  destruct (credential_loaded file "GROQ_API_KEY" Hf) as (g & -> & Hg).
  destruct (credential_loaded file "SERPER_API_KEY" Hf) as (k & -> & Hk).
  destruct (credential_loaded file "OPENWEATHER_API_KEY" Hf) as (o & -> & Ho).
  cbn [bind]. eexists. split; [reflexivity|].
  cbn [forallb]. rewrite Hg, Hk, Ho.
  destruct (missing "GROQ_API_KEY"), (missing "SERPER_API_KEY"),
    (missing "OPENWEATHER_API_KEY"); reflexivity.
Qed.

Lemma keys_not_loaded :
  secrets_file = None -> keys = Raise SecretsNotFound.
Proof.
  intros Hf. unfold App.keys, GROQ_API_KEY, credential, secrets_get.
  now rewrite Hf.
Qed.

(** A start without a secrets file ends at the first assignment. *)
Lemma main_without_secrets (selected : page) (goal : string) (button : bool)
    (w : world) :
  secrets_file = None ->
  main selected goal button w = (Crashed SecretsNotFound, w).
Proof.
  intros Hf. unfold App.main, check_keys, seq, lift.
  now rewrite (keys_not_loaded Hf).
Qed.

(** A start with a secrets file and a missing key is reported and
    stopped. *)
Lemma main_missing_key (selected : page) (goal : string) (button : bool)
    (w : world) (file : string -> option string) :
  secrets_file = Some file ->
  missing "GROQ_API_KEY" || missing "SERPER_API_KEY"
    || missing "OPENWEATHER_API_KEY" = true ->
  main selected goal button w
  = (Stopped, mkWorld (db w) (log w ++ [StError missing_keys])).
Proof.
  intros Hf Hm. destruct (keys_loaded file Hf) as (l & Hl & Hall).
  unfold App.main, check_keys, seq, lift. rewrite Hl, Hall, Hm. reflexivity.
Qed.

Lemma all_keys_loaded (file : string -> option string) :
  secrets_file = Some file ->
  all_keys = negb (missing "GROQ_API_KEY" || missing "SERPER_API_KEY"
                   || missing "OPENWEATHER_API_KEY").
Proof.
  intros Hf. destruct (keys_loaded file Hf) as (l & Hl & Hall).
  unfold App.all_keys. now rewrite Hl.
Qed.

(** A start whose key check does not pass runs nothing: it ends at once,
    having shown at most the missing-keys error. *)
Lemma main_without_keys (selected : page) (goal : string) (button : bool)
    (w : world) :
  all_keys = false ->
  main selected goal button w = (Crashed SecretsNotFound, w) \/
  main selected goal button w
  = (Stopped, mkWorld (db w) (log w ++ [StError missing_keys])).
Proof.
  intros H. destruct secrets_file_cases as [Hf|[file Hf]].
  - left. now apply main_without_secrets.
  - right. apply (main_missing_key _ _ _ _ file Hf).
    rewrite (all_keys_loaded file Hf) in H.
    now apply negb_false_iff in H.
Qed.

Lemma main_with_keys (selected : page) (goal : string) (button : bool)
    (w : world) :
  all_keys = true ->
  main selected goal button w
  = match selected with
    | NewPlan => new_plan_page goal button
    | ViewHistory => view_history_page
    end (mkWorld (Store.init_db (db w)) (log w ++ [StTitle "AI Task Planner"])).
Proof.
  intros H. unfold App.all_keys in H.
  destruct keys as [l|] eqn:Hl; [|discriminate H].
  unfold App.main, check_keys, seq, lift. rewrite Hl, H. reflexivity.
Qed.

(** Every way a planning run can go. *)
Lemma new_plan_page_run (goal : string) (w : world) :
  str_truthy goal = true ->
  new_plan_page goal true w
  = let started := (log w ++ [StSpinner "Generating plan...";
                              AgentInvoke goal])%list in
    match agent_executor_invoke goal with
    | Raise e => (Crashed e, mkWorld (db w) started)
    | Return response =>
        match getitem response "output" with
        | Raise e => (Crashed e, mkWorld (db w) started)
        | Return plan =>
            let shown := (started ++ [StMarkdown "### Generated Plan";
                                      StWrite plan;
                                      SavePlan goal plan])%list in
            match Store.save_plan now goal plan (db w) with
            | Raise e => (Crashed e, mkWorld (db w) shown)
            | Return d =>
                (Ok tt, mkWorld d (shown ++ [StSuccess "Plan saved!"]))
            end
        end
    end.
Proof.
  intros Hg. unfold App.new_plan_page. rewrite Hg.
  unfold save_plan, seq, emit, lift, on_db. cbn [db log].
  destruct (agent_executor_invoke goal) as [response|e];
    [|now rewrite <- !app_assoc].
  destruct (getitem response "output") as [plan|e];
    [|now rewrite <- !app_assoc].
  cbn [db log].
  destruct (Store.save_plan now goal plan (db w)); cbn [db log];
    now rewrite <- !app_assoc.
Qed.

(** X10.  A run of the script calls the agent exactly when the key check
    passes (the secrets file loads and each of the three keys has a
    non-empty value once the secrets are written over the environment), the
    New Plan page is selected, the button is pressed and the goal is not
    empty, and then once, with the goal; in every other run (no secrets
    file, missing key, history page, no button press, empty goal) neither
    the agent nor [save_plan] is called. *)
Theorem agent_runs_only_on_request
    (selected : page) (goal : string) (button : bool) (w : world) :
  filter is_agent_call (log (snd (main selected goal button w)))
  = (filter is_agent_call (log w)
       ++ (if requested selected goal button then [AgentInvoke goal] else []))%list
  /\
  saves (log (snd (main selected goal button w)))
  = (saves (log w)
       ++ (if requested selected goal button then handed_over goal else []))%list.
Proof.
  unfold App.requested. destruct all_keys eqn:Hk.
  - rewrite main_with_keys by exact Hk.
    destruct (init_db_some (db w)) as (t & Ht & _).
    destruct selected; cbn [is_new_plan andb].
    + destruct button; cbn [andb].
      * destruct (str_truthy goal) eqn:Hg.
        -- split.
           ++ rewrite new_plan_page_run by exact Hg. cbn zeta. cbn [db log].
              destruct (agent_executor_invoke goal) as [response|e];
                [|cbn [snd log]; rewrite !agent_calls_app; simpl;
                  now rewrite !app_nil_r].
              destruct (getitem response "output") as [plan|e];
                [|cbn [snd log]; rewrite !agent_calls_app; simpl;
                  now rewrite !app_nil_r].
              destruct (Store.save_plan now goal plan (Store.init_db (db w)));
                cbn [snd log]; rewrite !agent_calls_app; simpl;
                now rewrite !app_nil_r.
           ++ rewrite new_plan_page_saves by exact Hg. cbn [log].
              rewrite saves_app. simpl. now rewrite app_nil_r.
        -- unfold App.new_plan_page. rewrite Hg. unfold emit. cbn [snd log db].
           rewrite !agent_calls_app, !saves_app. simpl.
           now rewrite !app_nil_r.
      * unfold App.new_plan_page, ret. cbn [snd log].
        rewrite !agent_calls_app, !saves_app. simpl. now rewrite !app_nil_r.
    + rewrite (view_history_run _ t) by exact Ht. cbn [snd log db].
      rewrite !agent_calls_app, !saves_app.
      rewrite agent_calls_history, saves_history. simpl.
      now rewrite !app_nil_r.
  - cbn [andb].
    destruct (main_without_keys selected goal button w Hk) as [-> | ->];
      cbn [snd log]; rewrite ?agent_calls_app, ?saves_app; simpl;
      now rewrite !app_nil_r.
Qed.

(** X11.  The script is halted by [st.stop()], after the missing-keys
    error, exactly when the secrets file loads and one of the three keys has
    no non-empty value once the secrets are written over the environment (an
    empty secret hides a key of the environment).  Without a secrets file
    the script does not get that far: it ends with the exception of the
    first [st.secrets.get], whatever the environment holds. *)
Theorem script_stops_iff_key_check_fails
    (selected : page) (goal : string) (button : bool) (w : world) :
  (fst (main selected goal button w) = Stopped <->
   secrets_file <> None /\
   missing "GROQ_API_KEY" || missing "SERPER_API_KEY"
     || missing "OPENWEATHER_API_KEY" = true) /\
  (fst (main selected goal button w) = Stopped ->
   main selected goal button w
   = (Stopped, mkWorld (db w) (log w ++ [StError missing_keys]))) /\
  (secrets_file = None ->
   main selected goal button w = (Crashed SecretsNotFound, w)).
Proof.
  assert (Hrun : all_keys = true ->
                 fst (main selected goal button w) <> Stopped).
  { intros Hk. rewrite main_with_keys by exact Hk.
    destruct (init_db_some (db w)) as (t & Ht & _).
    destruct selected.
    - destruct button; [|discriminate].
      destruct (str_truthy goal) eqn:Hg.
      + rewrite new_plan_page_run by exact Hg. cbn zeta. cbn [db log].
        destruct (agent_executor_invoke goal) as [response|e];
          [|discriminate].
        destruct (getitem response "output") as [plan|e]; [|discriminate].
        destruct (Store.save_plan now goal plan (Store.init_db (db w)));
          discriminate.
      + unfold App.new_plan_page. rewrite Hg. discriminate.
    - rewrite (view_history_run _ t) by exact Ht. discriminate. }
  split; [|split].
  - split.
    + intros Hs. destruct secrets_file_cases as [Hf|[file Hf]].
      * rewrite (main_without_secrets _ _ _ _ Hf) in Hs. discriminate Hs.
      * split; [now rewrite Hf|].
        destruct all_keys eqn:Hk; [exfalso; exact (Hrun eq_refl Hs)|].
        rewrite (all_keys_loaded file Hf) in Hk.
        now apply negb_false_iff in Hk.
    + intros [Hf Hm]. destruct secrets_file_cases as [Hn|[file Hfile]];
        [contradiction|].
      now rewrite (main_missing_key _ _ _ _ file Hfile Hm).
  - intros Hs. destruct all_keys eqn:Hk; [exfalso; exact (Hrun eq_refl Hs)|].
    destruct (main_without_keys selected goal button w Hk) as [H|H];
      [rewrite H in Hs; discriminate Hs|exact H].
  - apply main_without_secrets.
Qed.

(** X12.  "Plan saved!" is shown only after the record was written: when a
    planning run shows the message, the run ended normally and the table
    holds one more row, with the goal, the plan that was displayed and the
    next id. *)
Theorem saved_message_means_stored
    (goal : string) (w w' : world) (o : outcome unit) :
  str_truthy goal = true ->
  new_plan_page goal true w = (o, w') ->
  ~ In (StSuccess "Plan saved!") (log w) ->
  In (StSuccess "Plan saved!") (log w') ->
  exists t plan,
    o = Ok tt /\
    db w = Some t /\
    In (StWrite plan) (log w') /\
    db w' = Some (Store.mkTable
                    (Store.rows t ++
                       [Store.mkRow (Store.last_id t + 1) goal plan now])
                    (Store.last_id t + 1)).
Proof.
  intros Hg Hrun Hold Hnew.
  assert (Hno : forall evs,
            In (StSuccess "Plan saved!") (log w ++ evs) ->
            In (StSuccess "Plan saved!") evs).
  { intros evs H. apply in_app_or in H as [H|H]; [contradiction|exact H]. }
  rewrite new_plan_page_run in Hrun by exact Hg. cbn zeta in Hrun.
  destruct (agent_executor_invoke goal) as [response|e].
  - destruct (getitem response "output") as [plan|e].
    + destruct (db w) as [t|] eqn:Hdb.
      * unfold Store.save_plan in Hrun.
        destruct (Store.bindable plan) as [v|e] eqn:Hb; cbn [bind] in Hrun.
        -- injection Hrun as <- <-. exists t, plan.
           assert (v = plan) as ->
             by (destruct plan; simpl in Hb; congruence).
           repeat split.
           cbn [log]. rewrite <- !app_assoc. apply in_or_app. right.
           simpl. auto 10.
        -- injection Hrun as <- <-. cbn [log] in Hnew.
           rewrite <- !app_assoc in Hnew. apply Hno in Hnew. simpl in Hnew.
           repeat (destruct Hnew as [Hnew|Hnew]; [discriminate Hnew|]).
           contradiction.
      * cbn [Store.save_plan] in Hrun. injection Hrun as <- <-.
        cbn [log] in Hnew. rewrite <- !app_assoc in Hnew.
        apply Hno in Hnew. simpl in Hnew.
        repeat (destruct Hnew as [Hnew|Hnew]; [discriminate Hnew|]).
        contradiction.
    + injection Hrun as <- <-. cbn [log] in Hnew. apply Hno in Hnew.
      simpl in Hnew.
      repeat (destruct Hnew as [Hnew|Hnew]; [discriminate Hnew|]).
      contradiction.
  - injection Hrun as <- <-. cbn [log] in Hnew. apply Hno in Hnew.
    simpl in Hnew.
    repeat (destruct Hnew as [Hnew|Hnew]; [discriminate Hnew|]).
    contradiction.
Qed.

(** X13.  With the keys in place the history page creates the table if it is
    not there, changes nothing in it, and shows, after the title, either
    "No plans saved yet." for an empty table or, for every record of
    [get_all_plans] in its order, an expander labelled with goal and
    creation time followed by the plan. *)
Theorem history_page_shows_listing
    (goal : string) (button : bool) (w : world) :
  all_keys = true ->
  exists out,
    Store.get_all_plans (Store.init_db (db w)) = Return out /\
    main ViewHistory goal button w
    = (Ok tt,
       mkWorld (Store.init_db (db w))
         ((log w ++ [StTitle "AI Task Planner"]) ++ history_events out)).
Proof.
  intros Hk. rewrite main_with_keys by exact Hk.
  destruct (init_db_some (db w)) as (t & Ht & _).
  exists (Store.order_by_created_at_desc (Store.rows t)).
  rewrite (view_history_run _ t) by exact Ht. cbn [db log].
  rewrite Ht. split; reflexivity.
Qed.

(** X14.  No run of the script removes or changes a stored plan: the rows
    that were in the table are still there, in place, after the run, which
    adds at most one row behind them. *)
Theorem run_keeps_stored_plans
    (selected : page) (goal : string) (button : bool) (w : world)
    (t : Store.table) :
  db w = Some t ->
  exists extra,
    db (snd (main selected goal button w))
    = Some (Store.mkTable (Store.rows t ++ extra)
              (Store.last_id t + Z.of_nat (List.length extra))) /\
    (List.length extra <= 1)%nat.
Proof.
  intros Hdb.
  assert (Hsame : Some t = Some (Store.mkTable (Store.rows t ++ [])
                                   (Store.last_id t + Z.of_nat (List.length (@nil Store.row))))).
  { simpl. rewrite app_nil_r, Z.add_0_r. now destruct t. }
  destruct all_keys eqn:Hk.
  - rewrite main_with_keys by exact Hk. rewrite Hdb. cbn [Store.init_db].
    destruct selected.
    + destruct button.
      * destruct (str_truthy goal) eqn:Hg.
        -- rewrite new_plan_page_run by exact Hg. cbn zeta. cbn [db log].
           destruct (agent_executor_invoke goal) as [response|e];
             [|exists []; split; [exact Hsame|simpl; lia]].
           destruct (getitem response "output") as [plan|e];
             [|exists []; split; [exact Hsame|simpl; lia]].
           unfold Store.save_plan.
           destruct (Store.bindable plan) as [v|e]; cbn [bind snd db].
           ++ eexists [_]. split; [reflexivity|simpl; lia].
           ++ exists []. split; [exact Hsame|simpl; lia].
        -- unfold App.new_plan_page. rewrite Hg. unfold emit. cbn [snd db].
           exists []. split; [exact Hsame|simpl; lia].
      * unfold App.new_plan_page, ret. cbn [snd db].
        exists []. split; [exact Hsame|simpl; lia].
    + rewrite (view_history_run _ t) by reflexivity. cbn [snd db].
      exists []. split; [exact Hsame|simpl; lia].
  - destruct (main_without_keys selected goal button w Hk) as [-> | ->];
      cbn [snd db]; rewrite Hdb;
      exists []; (split; [exact Hsame|simpl; lia]).
Qed.

(** X15.  A plan produced by a planning run is found on the history page of
    the next run: the run ends normally, and the history page then shows an
    expander with the goal and the creation time, and the plan text. *)
Theorem stored_plan_appears_in_history
    (goal plan : string) (response : json) (goal' : string) (button' : bool)
    (w : world) :
  all_keys = true ->
  str_truthy goal = true ->
  agent_executor_invoke goal = Return response ->
  getitem response "output" = Return (JStr plan) ->
  exists w1 w2,
    main NewPlan goal true w = (Ok tt, w1) /\
    main ViewHistory goal' button' (mkWorld (db w1) []) = (Ok tt, w2) /\
    db w2 = db w1 /\
    In (StExpander ("Goal: " ++ goal ++ " (Created: "
                      ++ Clock.timestamp_text now ++ ")")) (log w2) /\
    In (StWrite (JStr plan)) (log w2).
Proof.
  intros Hk Hg Hinv Hout.
  destruct (init_db_some (db w)) as (t & Ht & _).
  eexists. eexists. split.
  { rewrite main_with_keys by exact Hk.
    rewrite new_plan_page_run by exact Hg. cbn zeta. cbn [db log].
    rewrite Hinv, Hout, Ht. cbn [Store.save_plan Store.bindable bind].
    reflexivity. }
  cbn [db]. rewrite main_with_keys by exact Hk. cbn [db log Store.init_db].
  erewrite view_history_run by (cbn [db]; reflexivity).
  cbn [db log Store.rows].
  split; [reflexivity|]. split; [reflexivity|].
  set (r := Store.mkRow (Store.last_id t + 1) goal (JStr plan) now).
  assert (Hin : In r (Store.order_by_created_at_desc (Store.rows t ++ [r]))).
  { apply StoreFacts.order_by_in, in_or_app. right. now left. }
  assert (Hev : forall ev, In ev (record_events r) ->
            In ev (history_events
                     (Store.order_by_created_at_desc (Store.rows t ++ [r])))).
  { intros ev Hev.
    destruct (Store.order_by_created_at_desc (Store.rows t ++ [r]))
      as [|x rest] eqn:E; [contradiction|].
    unfold history_events. apply in_flat_map. exists r. split; assumption. }
  split; apply in_or_app; right; apply Hev; simpl; auto.
Qed.
(** X17.  A click that does not end normally stores nothing: whether the
    agent raised, its answer had no [output], or the insert failed, the
    database is as it was before. *)
Theorem failed_run_stores_nothing
    (goal : string) (button : bool) (w w' : world) (o : outcome unit) :
  new_plan_page goal button w = (o, w') ->
  o <> Ok tt ->
  db w' = db w.
Proof.
  intros Hrun Hfail. destruct button.
  - destruct (str_truthy goal) eqn:Hg.
    + rewrite new_plan_page_run in Hrun by exact Hg. cbn zeta in Hrun.
      destruct (agent_executor_invoke goal) as [response|e];
        [|now injection Hrun as _ <-].
      destruct (getitem response "output") as [plan|e];
        [|now injection Hrun as _ <-].
      destruct (Store.save_plan now goal plan (db w));
        injection Hrun as <- <-; [contradiction|reflexivity].
    + unfold App.new_plan_page in Hrun. rewrite Hg in Hrun.
      now injection Hrun as _ <-.
  - now injection Hrun as _ <-.
Qed.
End Script.

Lemma saved_message_witness :
  str_truthy "Plan a 1-day trip to Pune" = true /\
  exists t plan,
    Ok tt = Ok tt /\
    db fresh = Some t /\
    In (StWrite plan)
       (log (snd (new_plan_page (answers "Day 1: walk") 7
                    "Plan a 1-day trip to Pune" true fresh))) /\
    db (snd (new_plan_page (answers "Day 1: walk") 7
               "Plan a 1-day trip to Pune" true fresh))
    = Some (Store.mkTable
              (Store.rows t ++
                 [Store.mkRow (Store.last_id t + 1)
                    "Plan a 1-day trip to Pune" plan 7])
              (Store.last_id t + 1)).
Proof.
  split; [reflexivity|].
  apply (saved_message_means_stored (answers "Day 1: walk") 7
           "Plan a 1-day trip to Pune" fresh
           (snd (new_plan_page (answers "Day 1: walk") 7
                   "Plan a 1-day trip to Pune" true fresh))
           (Ok tt)).
  - reflexivity.
  - reflexivity.
  - intros [].
  - simpl. auto 10.
Defined.

Lemma history_page_witness :
  all_keys (Some all_secrets) no_secrets = true /\
  exists out,
    Store.get_all_plans (Store.init_db None) = Return out /\
    main (Some all_secrets) no_secrets gives_up 7 ViewHistory "" false
      (mkWorld None [])
    = (Ok tt,
       mkWorld (Store.init_db None)
         (([] ++ [StTitle "AI Task Planner"]) ++ history_events out)).
Proof.
  split; [reflexivity|].
  apply (history_page_shows_listing (Some all_secrets) no_secrets gives_up 7 ""
           false (mkWorld None [])).
  reflexivity.
Defined.

Lemma run_keeps_witness :
  db fresh = Some (Store.mkTable [] 0) /\
  exists extra,
    db (snd (main (Some all_secrets) no_secrets (answers "Day 1: walk") 7 NewPlan
               "Plan a 1-day trip to Pune" true fresh))
    = Some (Store.mkTable ([] ++ extra) (0 + Z.of_nat (List.length extra))) /\
    (List.length extra <= 1)%nat.
Proof.
  split; [reflexivity|].
  apply (run_keeps_stored_plans (Some all_secrets) no_secrets
           (answers "Day 1: walk") 7 NewPlan "Plan a 1-day trip to Pune" true
           fresh (Store.mkTable [] 0)).
  reflexivity.
Defined.

Lemma stored_plan_history_witness :
  all_keys (Some all_secrets) no_secrets = true /\
  exists w1 w2,
    main (Some all_secrets) no_secrets (answers "Day 1: walk") 7 NewPlan
      "Plan a 1-day trip to Pune" true fresh = (Ok tt, w1) /\
    main (Some all_secrets) no_secrets (answers "Day 1: walk") 7 ViewHistory
      "" false (mkWorld (db w1) []) = (Ok tt, w2) /\
    db w2 = db w1 /\
    In (StExpander ("Goal: " ++ "Plan a 1-day trip to Pune" ++ " (Created: "
                      ++ Clock.timestamp_text 7 ++ ")")) (log w2) /\
    In (StWrite (JStr "Day 1: walk")) (log w2).
Proof.
  split; [reflexivity|].
  apply (stored_plan_appears_in_history (Some all_secrets) no_secrets
           (answers "Day 1: walk") 7 "Plan a 1-day trip to Pune" "Day 1: walk"
           (JObj [("input", JStr "Plan a 1-day trip to Pune");
                  ("output", JStr "Day 1: walk")])
           "" false fresh);
    reflexivity.
Defined.

Lemma failed_run_witness :
  Crashed (AgentError "could not reach a final answer") <> Ok tt /\
  db (snd (new_plan_page gives_up 7 "Plan a 1-day trip to Pune" true fresh))
  = db fresh.
Proof.
  split; [discriminate|].
  apply (failed_run_stores_nothing gives_up 7 "Plan a 1-day trip to Pune"
           true fresh
           (snd (new_plan_page gives_up 7 "Plan a 1-day trip to Pune" true
                   fresh))
           (Crashed (AgentError "could not reach a final answer")));
    [reflexivity|discriminate].
Defined.

End AppMore.
